(** * load_question_md: markdown question loader

    A shallow embedding of [scripts/load_question_md.py] and the proofs of
    its specification.

    Python strings are sequences of Unicode code points: a [pystr] is a
    [list N].  The string methods the script calls ([strip], [splitlines],
    [split], [join], [in]) and the one regular expression are written out
    over code points with Python's own whitespace and line-break sets.  The
    script's two dictionaries are [gmap]s.  The third-party libraries
    (markdown-it, BeautifulSoup, psycopg2) and the number parsers [float] and
    [int] are an interface, [Externals], over which every definition is
    parametric. *)

From Stdlib Require Import String Ascii NArith ZArith List Lia PrimFloat Sorted.
From stdpp Require Import gmap list.

Local Open Scope N_scope.

(** ** Python strings *)

Abbreviation pystr := (list N).

Module PyStr.

(** Decoding of the UTF-8 bytes of a Rocq string literal into code points
    (used for literals only; the literals of the script are well formed). *)
Fixpoint utf8_decode (bs : list N) : pystr :=
  match bs with
  | [] => []
  | b :: t =>
      if b <? 0x80 then b :: utf8_decode t
      else if b <? 0xE0 then
        match t with
        | b1 :: t1 => ((b - 0xC0) * 0x40 + (b1 - 0x80)) :: utf8_decode t1
        | _ => []
        end
      else if b <? 0xF0 then
        match t with
        | b1 :: b2 :: t2 =>
            ((b - 0xE0) * 0x1000 + (b1 - 0x80) * 0x40 + (b2 - 0x80))
              :: utf8_decode t2
        | _ => []
        end
      else
        match t with
        | b1 :: b2 :: b3 :: t3 =>
            ((b - 0xF0) * 0x40000 + (b1 - 0x80) * 0x1000
             + (b2 - 0x80) * 0x40 + (b3 - 0x80)) :: utf8_decode t3
        | _ => []
        end
  end.

Definition lit (s : string) : pystr :=
  utf8_decode (map N_of_ascii (list_ascii_of_string s)).

(** [str.isspace] on one code point: CPython's [_PyUnicode_IsWhitespace].
    [str.strip()] without argument and the regular expression class [\s] on
    a [str] pattern both use this set. *)
Definition isspace (c : N) : bool :=
  ((0x09 <=? c) && (c <=? 0x0D)) || ((0x1C <=? c) && (c <=? 0x20))
  || (c =? 0x85) || (c =? 0xA0) || (c =? 0x1680)
  || ((0x2000 <=? c) && (c <=? 0x200A))
  || (c =? 0x2028) || (c =? 0x2029) || (c =? 0x202F) || (c =? 0x205F)
  || (c =? 0x3000).

(** The line boundaries of [str.splitlines]: CPython's
    [_PyUnicode_IsLinebreak]. *)
Definition is_linebreak (c : N) : bool :=
  ((0x0A <=? c) && (c <=? 0x0D)) || ((0x1C <=? c) && (c <=? 0x1E))
  || (c =? 0x85) || (c =? 0x2028) || (c =? 0x2029).

Fixpoint lstrip (s : pystr) : pystr :=
  match s with
  | [] => []
  | c :: t => if isspace c then lstrip t else s
  end.

Definition rstrip (s : pystr) : pystr := rev (lstrip (rev s)).

(** [s.strip()] *)
Definition strip (s : pystr) : pystr := rstrip (lstrip s).

(** [s.splitlines()]: the lines without their line ends; a carriage return
    followed by a line feed is one line end; no empty last line. *)
Fixpoint splitlines (s : pystr) : list pystr :=
  match s with
  | [] => []
  | c :: t =>
      if is_linebreak c then
        match t with
        | c' :: t' =>
            if (c =? 0x0D) && (c' =? 0x0A) then [] :: splitlines t'
            else [] :: splitlines t
        | [] => [[]]
        end
      else
        match splitlines t with
        | [] => [[c]]
        | l :: ls => (c :: l) :: ls
        end
  end.

(** [sep.join(parts)] *)
Fixpoint join (sep : pystr) (parts : list pystr) : pystr :=
  match parts with
  | [] => []
  | [p] => p
  | p :: ps => p ++ sep ++ join sep ps
  end.

(** [s.split(sep, 1)] for a one-character separator that occurs in [s]:
    the text before its first occurrence and the text after it; [None] when
    [sep not in s]. *)
Fixpoint split_once (sep : N) (s : pystr) : option (pystr * pystr) :=
  match s with
  | [] => None
  | c :: t =>
      if c =? sep then Some ([], t)
      else match split_once sep t with
           | Some (k, v) => Some (c :: k, v)
           | None => None
           end
  end.

(** [a < b] on strings: lexicographic on code points. *)
Fixpoint ltb (a b : pystr) : bool :=
  match a, b with
  | [], [] => false
  | [], _ :: _ => true
  | _ :: _, [] => false
  | x :: a', y :: b' => (x <? y) || ((x =? y) && ltb a' b')
  end.

Fixpoint insert_sorted (x : pystr) (l : list pystr) : list pystr :=
  match l with
  | [] => [x]
  | y :: l' => if ltb y x then y :: insert_sorted x l' else x :: l
  end.

(** [sorted(xs)] on strings *)
Definition sorted (xs : list pystr) : list pystr :=
  foldr insert_sorted [] xs.

End PyStr.

Import PyStr.

Definition nl : pystr := [0x0A].

(** Python truthiness of a string or a list: not empty. *)
Definition truthy {A} (l : list A) : bool :=
  match l with [] => false | _ :: _ => true end.

(** ** Errors *)

Inductive exn :=
| ValueError (msg : pystr)
| KeyError (key : pystr)
| SystemExit (msg : pystr)
| StorageError (info : pystr).

Inductive result (A : Type) :=
| Ok (a : A)
| Raise (e : exn).
Arguments Ok {A} a.
Arguments Raise {A} e.

#[export] Instance result_ret : MRet result := fun A a => Ok a.

#[export] Instance result_fmap : FMap result := fun A B f r =>
  match r with
  | Ok a => Ok (f a)
  | Raise e => Raise e
  end.

#[export] Instance result_bind : MBind result := fun A B k r =>
  match r with
  | Ok a => k a
  | Raise e => Raise e
  end.

(** [d[k]] on a dictionary *)
Definition getitem (d : gmap pystr pystr) (k : pystr) : result pystr :=
  match d !! k with
  | Some v => Ok v
  | None => Raise (KeyError k)
  end.

(** ** Section splitter *)

(** [heading_pattern.match(line)] on a line without line feed (a stripped
    line of [splitlines]): the two groups.  The pattern is: start of the
    string; one to six [#] (group 1); one or more whitespace characters;
    any characters up to the end of the string (group 2).  Group 1 is greedy
    and backtracks, but whatever it gives back is a [#], which the whitespace
    run refuses: the pattern matches exactly when the line starts with one to
    six [#] followed by a whitespace character.  The whitespace run is greedy
    too and takes all the whitespace there is; group 2 is the rest. *)
Fixpoint count_hashes (s : pystr) : nat :=
  match s with
  | c :: t => if c =? 0x23 then S (count_hashes t) else O
  | [] => O
  end.

Definition heading_match (line : pystr) : option (pystr * pystr) :=
  let n := count_hashes line in
  if ((1 <=? n) && (n <=? 6))%nat then
    match drop n line with
    | c :: t => if isspace c then Some (take n line, lstrip t) else None
    | [] => None
    end
  else None.

Record splitter := {
  sections : gmap pystr pystr;
  current_heading : option pystr;
  buffer : list pystr;
}.

(** [sections[current_heading] = "\n".join(buffer).strip()] *)
Definition flush (h : pystr) (st : splitter) : gmap pystr pystr :=
  <[h := strip (join nl (buffer st))]> (sections st).

(** One iteration of the loop of [parse_sections] on [raw_line]. *)
Definition split_step (st : splitter) (raw_line : pystr) : splitter :=
  match heading_match (strip raw_line) with
  | Some (_, title) =>
      match current_heading st with
      | Some h =>
          {| sections := flush h st;
             current_heading := Some (strip title);
             buffer := [] |}
      | None =>
          {| sections := sections st;
             current_heading := Some (strip title);
             buffer := buffer st |}
      end
  | None =>
      match current_heading st with
      | Some _ =>
          {| sections := sections st;
             current_heading := current_heading st;
             buffer := buffer st ++ [raw_line] |}
      | None => st
      end
  end.

Definition split_init : splitter :=
  {| sections := ∅; current_heading := None; buffer := [] |}.

(** What [parse_sections] does after its loop. *)
Definition split_finish (st : splitter) : gmap pystr pystr :=
  match current_heading st with
  | Some h => flush h st
  | None => sections st
  end.

(** [parse_sections], on the text that [md_path.read_text] returned. *)
Definition parse_sections (text : pystr) : gmap pystr pystr :=
  split_finish (fold_left split_step (splitlines text) split_init).

(** ** Attribute parser *)

Definition attr_step (attributes : gmap pystr pystr) (line : pystr)
  : gmap pystr pystr :=
  let cleaned := strip line in
  if truthy cleaned then
    match split_once 0x3A cleaned with
    | Some (key, value) => <[strip key := strip value]> attributes
    | None => attributes
    end
  else attributes.

Definition parse_attributes (raw_text : pystr) : gmap pystr pystr :=
  fold_left attr_step (splitlines raw_text) ∅.

Definition sample_doc : pystr :=
  join nl [ lit "# 题目"; lit "What is 2+2?"; lit "";
            lit "## 答案"; lit "4";
            lit "# 分析"; lit "# 详解"; lit "# 知识点";
            lit "# 属性"; lit "question_type: numeric"; lit "accuracy: 0.95" ].

(** ** The libraries the script calls

    What the script observes of markdown-it, of BeautifulSoup's tree, of
    Python's [float] and [int], and of the database behind psycopg2. *)

(** [isinstance(node, NavigableString)], with the string the node is, or a
    [Tag], with its [name]. *)
Inductive node_view :=
| NavigableString (s : pystr)
| Tag (name : pystr).

Record payload := {
  question_id : Z;
  question_type : pystr;
  accuracy : float;
  question : pystr;
  answer : list pystr;
  analysis : list pystr;
  explanation : list pystr;
  knowledge : list pystr;
}.

(** The double nearest to 0.95, which is what [float] returns for the
    text [0.95]. *)
Definition float_0_95 : float := 0x1.e666666666666p-1.

Class Externals := {
  (** [MARKDOWN_RENDERER.render(text)] *)
  md_render : pystr -> pystr;
  (** the nodes of a parsed tree *)
  node : Type;
  (** [BeautifulSoup(html, "html.parser").contents] *)
  soup_contents : pystr -> list node;
  (** [BeautifulSoup(html, "html.parser").get_text(separator=" ", strip=True)] *)
  soup_get_text : pystr -> pystr;
  view : node -> node_view;
  (** [node.find_all("li", recursive=False)] *)
  find_li : node -> list node;
  (** [str(node)] *)
  node_str : node -> pystr;
  (** [node.get_text(separator=" ", strip=True)] *)
  node_get_text : node -> pystr;
  (** [float(s)]; [None] when it raises [ValueError] *)
  py_float : pystr -> option float;
  (** [int(s)]; [None] when it raises [ValueError] *)
  py_int : pystr -> option Z;
  (** the message of the [ValueError] that [int(s)] raises *)
  py_int_error : pystr -> pystr;
  (** the state of the database *)
  database : Type;
  (** connecting to [dsn] and executing the upsert with the payload's values:
      an error, if the driver raises one, and the database afterwards *)
  db_upsert : pystr -> payload -> database -> option exn * database;
}.

Section Script.

Context {E : Externals}.

(** ** Markdown renderer *)

Definition markdown_to_html (source : pystr) : pystr :=
  let text := strip source in
  if truthy text then strip (md_render text) else [].

Definition is_list_tag (name : pystr) : bool :=
  bool_decide (name = lit "ul") || bool_decide (name = lit "ol").

(** The body of the loop of [markdown_to_html_list]: what one node appends
    to [fragments]. *)
Definition html_node_fragments (n : node) : list pystr :=
  match view n with
  | NavigableString s => if truthy (strip s) then [strip s] else []
  | Tag name =>
      if is_list_tag name then map node_str (find_li n) else [node_str n]
  end.

Definition markdown_to_html_list (source : pystr) : list pystr :=
  let text := strip source in
  if truthy text then
    let html := strip (md_render text) in
    let fragments := concat (map html_node_fragments (soup_contents html)) in
    let cleaned :=
      map strip (filter (fun fragment => truthy (strip fragment)) fragments) in
    if truthy cleaned then cleaned else [html]
  else [].

(** The body of the loop of [markdown_to_text_list]. *)
Definition text_node_fragments (n : node) : list pystr :=
  match view n with
  | NavigableString s => if truthy (strip s) then [strip s] else []
  | Tag name =>
      if is_list_tag name then
        filter (fun child_text => truthy child_text)
               (map node_get_text (find_li n))
      else if truthy (node_get_text n) then [node_get_text n] else []
  end.

(** [fragments] after the loop of [markdown_to_text_list], for the rendered
    and stripped [html]. *)
Definition walk_text (html : pystr) : list pystr :=
  concat (map text_node_fragments (soup_contents html)).

(** [raw_lines] of [markdown_to_text_list], for the stripped source. *)
Definition raw_lines (text : pystr) : list pystr :=
  map strip (filter (fun line => truthy (strip line)) (splitlines text)).

Definition markdown_to_text_list (source : pystr) : list pystr :=
  let text := strip source in
  if truthy text then
    let html := strip (md_render text) in
    let fragments := walk_text html in
    let cleaned_fragments := filter (fun fragment => truthy fragment) fragments in
    let raw_lines := raw_lines text in
    if truthy cleaned_fragments then
      if (length cleaned_fragments =? 1)%nat && (1 <? length raw_lines)%nat
      then raw_lines
      else cleaned_fragments
    else if (1 <? length raw_lines)%nat then raw_lines
    else
      let fallback := soup_get_text html in
      if truthy fallback then [fallback] else []
  else [].

(** ** Payload builder *)

Definition required_headings : list pystr :=
  [lit "题目"; lit "答案"; lit "分析"; lit "详解"; lit "知识点"; lit "属性"].

(** [required_headings - sections.keys()] *)
Definition missing_headings (sections : gmap pystr pystr) : list pystr :=
  filter (fun h => bool_decide (sections !! h = None)) required_headings.

(** [str(KeyError(key))] is [repr(key)]: for a key of plain letters and
    underscores, the key between single quotes. *)
Definition key_error_str (key : pystr) : pystr :=
  lit "'" ++ key ++ lit "'".

(** The [Path] object [md_path], by what the script asks of it. *)
Record Path := {
  stem : pystr;
  read_text : pystr;
}.

(** The [try] statement of [build_payload]. *)
Definition read_attributes (attributes : gmap pystr pystr)
  : result (pystr * float) :=
  let body : result (pystr * float) :=
    question_type ← getitem attributes (lit "question_type");
    accuracy_text ← getitem attributes (lit "accuracy");
    match py_float accuracy_text with
    | Some accuracy => Ok (question_type, accuracy)
    | None => Raise (ValueError (lit "could not convert string to float"))
    end in
  match body with
  | Raise (KeyError missing_key) =>
      Raise (ValueError (lit "Missing attribute: " ++ key_error_str missing_key))
  | Raise (ValueError _) => Raise (ValueError (lit "Accuracy must be a float."))
  | r => r
  end.

Definition build_payload (md_path : Path) : result payload :=
  let sections := parse_sections (read_text md_path) in
  let missing := missing_headings sections in
  if truthy missing then
    Raise (ValueError (lit "Markdown file is missing sections: "
                       ++ join (lit ", ") (sorted missing)))
  else
    attributes ← parse_attributes <$> getitem sections (lit "属性");
    '(question_type, accuracy) ← read_attributes attributes;
    question_html ← markdown_to_html <$> getitem sections (lit "题目");
    answer_text_list ← markdown_to_text_list <$> getitem sections (lit "答案");
    analysis_html_list ← markdown_to_html_list <$> getitem sections (lit "分析");
    explanation_html_list ← markdown_to_html_list <$> getitem sections (lit "详解");
    knowledge_text_list ← markdown_to_text_list <$> getitem sections (lit "知识点");
    if negb (truthy question_html) then
      Raise (ValueError (lit "Question section cannot be empty."))
    else if negb (truthy answer_text_list) then
      Raise (ValueError (lit "Answer section cannot be empty."))
    else
      match py_int (stem md_path) with
      | None => Raise (ValueError (py_int_error (stem md_path)))
      | Some question_id =>
          Ok {| question_id := question_id;
                question_type := question_type;
                accuracy := accuracy;
                question := question_html;
                answer := answer_text_list;
                analysis := analysis_html_list;
                explanation := explanation_html_list;
                knowledge := knowledge_text_list |}
      end.

(** What is left of [build_payload] once the six sections are there. *)
Definition assemble (md_path : Path) (q a an ex kn at' : pystr) : result payload :=
  '(question_type, accuracy) ← read_attributes (parse_attributes at');
  if negb (truthy (markdown_to_html q)) then
    Raise (ValueError (lit "Question section cannot be empty."))
  else if negb (truthy (markdown_to_text_list a)) then
    Raise (ValueError (lit "Answer section cannot be empty."))
  else
    match py_int (stem md_path) with
    | None => Raise (ValueError (py_int_error (stem md_path)))
    | Some question_id =>
        Ok {| question_id := question_id;
              question_type := question_type;
              accuracy := accuracy;
              question := markdown_to_html q;
              answer := markdown_to_text_list a;
              analysis := markdown_to_html_list an;
              explanation := markdown_to_html_list ex;
              knowledge := markdown_to_text_list kn |}
    end.

(** ** Store writer and command line *)





End Script.

(** ** An excerpt of the libraries

    What markdown-it (CommonMark preset) renders and what [html.parser]
    builds on the few inputs of the examples below, with a small tree type
    of strings and attribute-free tags.  Outside these inputs the two tables
    answer with the empty string and the empty tree, which says nothing of
    the libraries there. *)

Module Sample.

#[local] Set Warnings "-register-all".

Inductive snode :=
| SString (s : pystr)
| STag (name : pystr) (kids : list snode).

Fixpoint assoc {A} (d : A) (k : pystr) (table : list (pystr * A)) : A :=
  match table with
  | [] => d
  | (k', v) :: rest => if bool_decide (k = k') then v else assoc d k rest
  end.

Definition render_table : list (pystr * pystr) :=
  [ (lit "What is 2+2?", lit "<p>What is 2+2?</p>" ++ nl);
    (lit "4", lit "<p>4</p>" ++ nl);
    (lit "A" ++ nl ++ lit "B", lit "<p>A" ++ nl ++ lit "B</p>" ++ nl);
    (lit "- item one",
     lit "<ul>" ++ nl ++ lit "<li>item one</li>" ++ nl ++ lit "</ul>" ++ nl);
    (lit "[foo]: /url", []) ].

Definition parse_table : list (pystr * list snode) :=
  [ (lit "<p>What is 2+2?</p>", [STag (lit "p") [SString (lit "What is 2+2?")]]);
    (lit "<p>4</p>", [STag (lit "p") [SString (lit "4")]]);
    (lit "<p>A" ++ nl ++ lit "B</p>",
     [STag (lit "p") [SString (lit "A" ++ nl ++ lit "B")]]);
    (lit "<ul>" ++ nl ++ lit "<li>item one</li>" ++ nl ++ lit "</ul>",
     [STag (lit "ul") [SString nl;
                       STag (lit "li") [SString (lit "item one")];
                       SString nl]]);
    ([], []) ].

Fixpoint strings (n : snode) : list pystr :=
  match n with
  | SString s => [s]
  | STag _ kids => concat (map strings kids)
  end.

Definition get_text (ns : list snode) : pystr :=
  join (lit " ")
       (filter (fun s => truthy s) (map strip (concat (map strings ns)))).

Fixpoint to_str (n : snode) : pystr :=
  match n with
  | SString s => s
  | STag name kids =>
      lit "<" ++ name ++ lit ">" ++ concat (map to_str kids)
      ++ lit "</" ++ name ++ lit ">"
  end.

Definition is_li (n : snode) : bool :=
  match n with
  | STag name _ => bool_decide (name = lit "li")
  | SString _ => false
  end.

Definition direct_li (n : snode) : list snode :=
  match n with
  | SString _ => []
  | STag _ kids => filter (fun k => is_li k) kids
  end.

Definition digit (c : N) : option Z :=
  if (0x30 <=? c) && (c <=? 0x39) then Some (Z.of_N (c - 0x30)) else None.

(** [int] on the filename stems of the examples: a string of ASCII digits
    is read, any other string is refused.  Python's [int] also reads a sign,
    surrounding whitespace, underscores between digits and the digits of
    other scripts; none of the examples has such a stem. *)
Definition decimal (s : pystr) : option Z :=
  match s with
  | [] => None
  | _ => foldl (fun acc c => match acc, digit c with
                             | Some a, Some d => Some (10 * a + d)%Z
                             | _, _ => None
                             end) (Some 0%Z) s
  end.

#[export] Instance externals : Externals := {|
  md_render := fun text => assoc [] text render_table;
  node := snode;
  soup_contents := fun html => assoc [] html parse_table;
  soup_get_text := fun html => get_text (assoc [] html parse_table);
  view := fun n => match n with
                   | SString s => NavigableString s
                   | STag name _ => Tag name
                   end;
  find_li := direct_li;
  node_str := to_str;
  node_get_text := fun n => get_text [n];
  py_float := fun s => assoc None s [(lit "0.95", Some float_0_95)];
  py_int := decimal;
  py_int_error := fun s =>
    lit "invalid literal for int() with base 10: '" ++ s ++ lit "'";
  database := gmap Z payload;
  db_upsert := fun _ p d => (None, <[question_id p := p]> d);
|}.

End Sample.

(** ** Vocabulary of the statements *)

(** A string of whitespace only. *)
Definition all_space (s : pystr) : Prop := Forall (fun c => isspace c = true) s.



(** The title under which [parse_sections] files a heading line; [None] for
    a line that is not a heading. *)
Definition heading_title (raw_line : pystr) : option pystr :=
  match heading_match (strip raw_line) with
  | Some (_, title) => Some (strip title)
  | None => None
  end.

Definition is_heading (raw_line : pystr) : bool :=
  match heading_title raw_line with Some _ => true | None => false end.

(** The lines up to the next heading line. *)
Fixpoint section_body (lines : list pystr) : list pystr :=
  match lines with
  | [] => []
  | l :: rest => if is_heading l then [] else l :: section_body rest
  end.

(** The state after a heading line: the open section is flushed, the new
    title is current, nothing is buffered. *)
Definition after_heading (st : splitter) (t : pystr) : splitter :=
  {| sections := match current_heading st with
                 | Some h => flush h st
                 | None => sections st
                 end;
     current_heading := Some t;
     buffer := match current_heading st with
               | Some _ => []
               | None => buffer st
               end |}.

(** Nothing is buffered before the first heading. *)
Definition buffer_closed (st : splitter) : Prop :=
  current_heading st = None -> buffer st = [].

(** The six sections, with nothing under the attributes heading. *)
Definition doc_no_attributes : pystr :=
  join nl [ lit "# 题目"; lit "What is 2+2?"; lit "# 答案"; lit "4";
            lit "# 分析"; lit "# 详解"; lit "# 知识点"; lit "# 属性" ].


(** A document without the analysis and the attributes sections. *)
Definition doc_two_missing : pystr :=
  join nl [ lit "# 题目"; lit "What is 2+2?"; lit "# 答案"; lit "4";
            lit "# 详解"; lit "# 知识点" ].


(** A document whose second heading is indented. *)
Definition indented_doc : pystr :=
  join nl [ lit "# 答案"; lit "four"; lit "    # 题目"; lit "body" ].

(** A document in which the title [A] occurs twice. *)
Definition duplicate_doc : pystr :=
  join nl [ lit "# A"; lit "first"; lit "# B"; lit "other";
            lit "# A"; lit "second"; lit "more" ].

(** ** Vocabulary of the further properties *)

(** The entry that one line of the attributes section sets, if it sets one:
    the body of the loop of [parse_attributes] up to the assignment. *)
Definition attr_entry (line : pystr) : option (pystr * pystr) :=
  let cleaned := strip line in
  if truthy cleaned then
    match split_once 0x3A cleaned with
    | Some (key, value) => Some (strip key, strip value)
    | None => None
    end
  else None.

(** The key that a line of the attributes section sets. *)
Definition attr_key (line : pystr) : option pystr :=
  match attr_entry line with
  | Some (key, _) => Some key
  | None => None
  end.

(** Text before the first heading, then one section. *)
Definition preamble_doc : pystr :=
  join nl [ lit "intro"; lit "more"; lit "# A"; lit "x" ].

(** An attributes section that sets [accuracy] twice. *)
Definition attrs_twice : pystr :=
  join nl [ lit "accuracy: 0.5"; lit "a note"; lit "accuracy: 0.95" ].

(** The six sections, with nothing under the question heading. *)
Definition doc_blank_question : pystr :=
  join nl [ lit "# 题目"; lit "# 答案"; lit "4";
            lit "# 分析"; lit "# 详解"; lit "# 知识点";
            lit "# 属性"; lit "question_type: numeric"; lit "accuracy: 0.95" ].

(** The six sections, with nothing under the answer heading. *)
Definition doc_blank_answer : pystr :=
  join nl [ lit "# 题目"; lit "What is 2+2?"; lit "# 答案";
            lit "# 分析"; lit "# 详解"; lit "# 知识点";
            lit "# 属性"; lit "question_type: numeric"; lit "accuracy: 0.95" ].

(** [sample_doc] with a seventh section. *)
Definition doc_extra_section : pystr :=
  join nl [ sample_doc; lit "# 备注"; lit "hello" ].

(** The excerpt of the libraries, with a list of two items added: what
    markdown-it renders for it and the tree that [html.parser] builds. *)
Definition two_items : pystr := lit "- one" ++ nl ++ lit "- two".

Definition two_items_html : pystr :=
  lit "<ul>" ++ nl ++ lit "<li>one</li>" ++ nl ++ lit "<li>two</li>" ++ nl
  ++ lit "</ul>".

Definition two_items_tree : list Sample.snode :=
  [Sample.STag (lit "ul")
     [Sample.SString nl; Sample.STag (lit "li") [Sample.SString (lit "one")];
      Sample.SString nl; Sample.STag (lit "li") [Sample.SString (lit "two")];
      Sample.SString nl]].

Definition list_externals : Externals := {|
  md_render := fun text =>
    Sample.assoc (@md_render Sample.externals text) text
                 [(two_items, two_items_html ++ nl)];
  node := Sample.snode;
  soup_contents := fun html =>
    Sample.assoc (@soup_contents Sample.externals html) html
                 [(two_items_html, two_items_tree)];
  soup_get_text := fun html =>
    Sample.get_text
      (Sample.assoc (@soup_contents Sample.externals html) html
                    [(two_items_html, two_items_tree)]);
  view := @view Sample.externals;
  find_li := Sample.direct_li;
  node_str := Sample.to_str;
  node_get_text := fun n => Sample.get_text [n];
  py_float := @py_float Sample.externals;
  py_int := Sample.decimal;
  py_int_error := @py_int_error Sample.externals;
  database := gmap Z payload;
  db_upsert := @db_upsert Sample.externals;
|}.

(** [a <= b] on strings, as [sorted] orders them. *)
Definition str_le (a b : pystr) : Prop := ltb b a = false.

(** * Proofs *)

(** ** The model on examples *)

Example lit_ascii : lit "# a" = [0x23; 0x20; 0x61].
Proof. reflexivity. Qed.

Example lit_cjk : lit "题目" = [0x9898; 0x76EE].
Proof. reflexivity. Qed.

Example splitlines_ex :
  splitlines (lit "a
b") = [lit "a"; lit "b"].
Proof. reflexivity. Qed.

Example parse_sections_sample :
  parse_sections sample_doc =
  list_to_map [ (lit "题目", lit "What is 2+2?"); (lit "答案", lit "4");
                (lit "分析", []); (lit "详解", []); (lit "知识点", []);
                (lit "属性", join nl [lit "question_type: numeric";
                                      lit "accuracy: 0.95"]) ].
Proof. vm_compute. reflexivity. Qed.

Example sample_html_list :
  markdown_to_html_list (E := Sample.externals) (lit "- item one")
  = [lit "<li>item one</li>"].
Proof. vm_compute. reflexivity. Qed.

(** ** Stripping *)

Section Strip.

Lemma lstrip_app_space ws l : all_space ws -> lstrip (ws ++ l) = lstrip l.
Proof.
  induction 1 as [|c ws Hc _ IH]; simpl; [done|]. by rewrite Hc.
Qed.

Lemma strip_app_space ws l : all_space ws -> strip (ws ++ l) = strip l.
Proof. intros H. unfold strip. by rewrite lstrip_app_space. Qed.

Lemma lstrip_nil_iff s : lstrip s = [] <-> all_space s.
Proof.
  induction s as [|c t IH]; simpl.
  - split; [constructor | done].
  - destruct (isspace c) eqn:Hc.
    + rewrite IH. split; [by constructor | by inversion 1].
    + split; [done | inversion 1; congruence].
Qed.

Lemma lstrip_snoc y c :
  lstrip (y ++ [c]) =
  match lstrip y with
  | [] => if isspace c then [] else [c]
  | z => z ++ [c]
  end.
Proof.
  induction y as [|d y IH]; simpl; [done|].
  destruct (isspace d); [exact IH | reflexivity].
Qed.

Lemma rstrip_cons c t :
  rstrip (c :: t) =
  match rstrip t with
  | [] => if isspace c then [] else [c]
  | z => c :: z
  end.
Proof.
  unfold rstrip. simpl. rewrite lstrip_snoc.
  destruct (lstrip (rev t)) as [|d z]; simpl.
  - by destruct (isspace c).
  - rewrite rev_app_distr. simpl.
    destruct (rev z ++ [d]) eqn:H; [by destruct (rev z) | done].
Qed.

Lemma rstrip_nil_iff s : rstrip s = [] <-> all_space s.
Proof.
  induction s as [|c t IH]; [split; [constructor|done]|].
  rewrite rstrip_cons. destruct (rstrip t) as [|d z] eqn:Ht.
  - destruct (isspace c) eqn:Hc.
    + split; [intros _; constructor; [done | by apply IH] | done].
    + split; [done | inversion 1; congruence].
  - split; [done|]. inversion 1 as [|? ? _ Hall]. by apply IH in Hall.
Qed.

Lemma lstrip_head s :
  lstrip s = [] \/ exists c t, lstrip s = c :: t /\ isspace c = false.
Proof.
  induction s as [|c t IH]; simpl; [by left|].
  destruct (isspace c) eqn:Hc; [done|]. right. by exists c, t.
Qed.

Lemma lstrip_fix c t : isspace c = false -> lstrip (c :: t) = c :: t.
Proof. intros H. simpl. by rewrite H. Qed.

Lemma lstrip_idemp s : lstrip (lstrip s) = lstrip s.
Proof.
  destruct (lstrip_head s) as [-> | (c & t & -> & Hc)]; [done|].
  by apply lstrip_fix.
Qed.

Lemma rstrip_idemp s : rstrip (rstrip s) = rstrip s.
Proof. unfold rstrip. by rewrite rev_involutive, lstrip_idemp. Qed.

Lemma lstrip_rstrip s : lstrip (rstrip s) = rstrip (lstrip s).
Proof.
  induction s as [|c t IH]; [done|].
  destruct (isspace c) eqn:Hc.
  - simpl lstrip at 2. rewrite Hc, <- IH, rstrip_cons.
    destruct (rstrip t) as [|d z]; rewrite ?Hc; simpl; by rewrite ?Hc.
  - rewrite (lstrip_fix c t Hc), rstrip_cons.
    destruct (rstrip t) as [|d z]; rewrite ?Hc; by apply lstrip_fix.
Qed.

Lemma strip_idemp s : strip (strip s) = strip s.
Proof.
  unfold strip. by rewrite lstrip_rstrip, lstrip_idemp, rstrip_idemp.
Qed.

Lemma strip_nil_iff s : strip s = [] <-> all_space s.
Proof.
  unfold strip. rewrite <- lstrip_rstrip, lstrip_nil_iff.
  rewrite <- (rstrip_nil_iff (rstrip s)), rstrip_idemp. apply rstrip_nil_iff.
Qed.

Lemma rstrip_app_keep a b : rstrip b <> [] -> rstrip (a ++ b) = a ++ rstrip b.
Proof.
  intros Hb. induction a as [|c a IH]; [done|].
  simpl. rewrite rstrip_cons, IH.
  destruct (a ++ rstrip b) as [|d z] eqn:Hab; [|done].
  apply app_eq_nil in Hab as [_ Hnil]. done.
Qed.

Lemma truthy_true {A} (l : list A) : truthy l = true <-> l <> [].
Proof. by destruct l. Qed.

End Strip.

(** ** The raw lines of a source and of its stripped text *)

Section RawLines.

Implicit Types (s t l : pystr) (c : N) (ls : list pystr).








Lemma splitlines_char c t :
  is_linebreak c = false ->
  splitlines (c :: t)
  = match splitlines t with [] => [[c]] | l :: ls => (c :: l) :: ls end.
Proof. intros Hc. simpl. by rewrite Hc. Qed.

Lemma splitlines_break c t :
  is_linebreak c = true ->
  splitlines (c :: t)
  = [] :: splitlines match t with
                     | c' :: t' => if (c =? 0x0D) && (c' =? 0x0A) then t' else t
                     | [] => []
                     end.
Proof.
  intros Hc. simpl. rewrite Hc. destruct t as [|c' t']; [done|].
  by destruct ((c =? 0x0D) && (c' =? 0x0A)).
Qed.

(** No line of [splitlines] holds a line break, so none holds a line feed:
    the lines that [parse_sections] tests against the heading pattern are
    lines on which [heading_match] is the pattern. *)
Lemma splitlines_no_linebreak s :
  Forall (Forall (fun c => is_linebreak c = false)) (splitlines s).
Proof.
  remember (length s) as n eqn:Hn. revert s Hn.
  induction n as [n IH] using lt_wf_ind. intros s ->.
  destruct s as [|c t]; [constructor|].
  destruct (is_linebreak c) eqn:Hc.
  - rewrite (splitlines_break c t Hc). constructor; [constructor|].
    destruct t as [|c' t']; [constructor|].
    destruct ((c =? 0x0D) && (c' =? 0x0A)).
    + apply (IH (length t')); [simpl; lia | done].
    + apply (IH (length (c' :: t'))); [simpl; lia | done].
  - rewrite (splitlines_char c t Hc).
    pose proof (IH (length t) ltac:(simpl; lia) t eq_refl) as Ht.
    destruct (splitlines t) as [|l ls]; [by repeat constructor|].
    inversion Ht; subst. constructor; [by constructor | done].
Qed.













End RawLines.

(** ** Section splitter *)

Section Splitter.

Implicit Types (st : splitter) (l line : pystr) (lines : list pystr).
Lemma split_step_heading st l t :
  heading_title l = Some t -> split_step st l = after_heading st t.
Proof.
  unfold heading_title, split_step, after_heading.
  destruct (heading_match (strip l)) as [[g1 g2]|]; [|done].
  intros [= <-]. by destruct (current_heading st).
Qed.

Lemma split_step_body st l :
  heading_title l = None ->
  split_step st l =
  match current_heading st with
  | Some h => {| sections := sections st; current_heading := Some h;
                 buffer := buffer st ++ [l] |}
  | None => st
  end.
Proof.
  unfold heading_title, split_step.
  destruct (heading_match (strip l)) as [[g1 g2]|]; [done|].
  intros _. by destruct (current_heading st).
Qed.

Lemma heading_title_indent ws l :
  all_space ws -> heading_title (ws ++ l) = heading_title l.
Proof. intros H. unfold heading_title. by rewrite strip_app_space. Qed.

Lemma isspace_not_hash c : isspace c = true -> (c =? 0x23) = false.
Proof.
  intros H. destruct (N.eqb_spec c 0x23) as [->|]; [|done].
  by vm_compute in H.
Qed.

Lemma count_hashes_replicate k c r :
  (c =? 0x23) = false -> count_hashes (replicate k 0x23 ++ c :: r) = k.
Proof. intros H. induction k as [|k IH]; simpl; [by rewrite H | by rewrite IH]. Qed.

Lemma heading_match_hashes k sp r :
  (1 <= k <= 6)%nat -> isspace sp = true ->
  heading_match (replicate k 0x23 ++ sp :: r)
  = Some (replicate k 0x23, lstrip r).
Proof.
  intros Hk Hsp. unfold heading_match.
  rewrite (count_hashes_replicate k sp r (isspace_not_hash sp Hsp)).
  replace ((1 <=? k)%nat && (k <=? 6)%nat) with true
    by (symmetry; apply andb_true_intro; split; apply Nat.leb_le; lia).
  rewrite drop_app_length', take_app_length' by (symmetry; apply length_replicate).
  by rewrite Hsp.
Qed.

Lemma strip_heading_line ws k sp rest :
  all_space ws -> (1 <= k)%nat -> strip rest <> [] ->
  strip (ws ++ replicate k 0x23 ++ sp :: rest)
  = replicate k 0x23 ++ sp :: rstrip rest.
Proof.
  intros Hws Hk Hrest. rewrite strip_app_space by done. unfold strip.
  destruct k as [|k]; [lia|]. simpl replicate.
  rewrite <- app_comm_cons, lstrip_fix by done.
  rewrite app_comm_cons.
  change (sp :: rest) with ([sp] ++ rest). rewrite app_assoc.
  rewrite rstrip_app_keep; [by rewrite <- app_assoc|].
  intros Hnil. apply Hrest. apply strip_nil_iff. by apply rstrip_nil_iff.
Qed.

Lemma split_step_closed st l : buffer_closed st -> buffer_closed (split_step st l).
Proof.
  intros Hst. destruct (heading_title l) as [t|] eqn:Ht.
  - rewrite (split_step_heading _ _ _ Ht). by intros [=].
  - rewrite (split_step_body _ _ Ht).
    destruct (current_heading st) eqn:Hc; [by intros [=] | done].
Qed.

Lemma fold_split_closed lines st :
  buffer_closed st -> buffer_closed (fold_left split_step lines st).
Proof.
  revert st. induction lines as [|l lines IH]; intros st Hst; [done|].
  simpl. apply IH. by apply split_step_closed.
Qed.

(** Lines without a heading of title [t] leave the entry of [t] alone,
    unless the section of [t] is the open one. *)
Lemma fold_split_other lines st t :
  current_heading st <> Some t ->
  Forall (fun l => heading_title l <> Some t) lines ->
  split_finish (fold_left split_step lines st) !! t = sections st !! t.
Proof.
  revert st. induction lines as [|l lines IH]; intros st Hcur Hall.
  - simpl. unfold split_finish, flush.
    destruct (current_heading st) as [h|]; [|done].
    apply lookup_insert_ne. congruence.
  - inversion Hall as [|? ? Hl Hrest]; subst. simpl.
    destruct (heading_title l) as [t'|] eqn:Ht.
    + rewrite (split_step_heading _ _ _ Ht), IH; [|simpl; congruence|done].
      simpl. destruct (current_heading st) as [h|]; [|done].
      apply lookup_insert_ne. congruence.
    + rewrite (split_step_body _ _ Ht).
      destruct (current_heading st) as [h|] eqn:Hc.
      * rewrite IH; [done | simpl; congruence | done].
      * rewrite IH; [done | congruence | done].
Qed.

(** Lines that are no headings go to the buffer of the open section. *)
Lemma fold_split_body body st h :
  current_heading st = Some h ->
  Forall (fun l => heading_title l = None) body ->
  fold_left split_step body st
  = {| sections := sections st; current_heading := Some h;
       buffer := buffer st ++ body |}.
Proof.
  revert st. induction body as [|l body IH]; intros st Hcur Hall.
  - simpl. rewrite app_nil_r. destruct st; simpl in *; congruence.
  - inversion Hall as [|? ? Hl Hrest]; subst. simpl.
    rewrite (split_step_body _ _ Hl), Hcur, IH by done.
    simpl. by rewrite <- app_assoc.
Qed.

Lemma section_body_split lines :
  exists rest,
    lines = section_body lines ++ rest
    /\ Forall (fun l => heading_title l = None) (section_body lines)
    /\ (rest = [] \/ exists h t r, rest = h :: r /\ heading_title h = Some t).
Proof.
  induction lines as [|l lines (rest & Heq & Hall & Hrest)].
  - exists []. simpl. auto.
  - simpl. unfold is_heading. destruct (heading_title l) as [t|] eqn:Ht.
    + exists (l :: lines). split; [done|]. split; [constructor|].
      right. by exists l, t, lines.
    + exists rest. split; [simpl; congruence|]. split; [by constructor | done].
Qed.

Lemma last_occurrence {A} (P : A -> Prop) `{!forall x, Decision (P x)} (xs : list A) :
  Exists P xs ->
  exists pre x post, xs = pre ++ x :: post /\ P x /\ Forall (fun y => ~ P y) post.
Proof.
  induction xs as [|a xs IH]; intros Hex; [by inversion Hex|].
  destruct (decide (Exists P xs)) as [Hlater|Hnone].
  - destruct (IH Hlater) as (pre & x & post & -> & Hx & Hpost).
    by exists (a :: pre), x, post.
  - apply not_Exists_Forall in Hnone; [|done].
    inversion Hex as [? ? Ha|? ? Hlater]; subst.
    + by exists [], a, xs.
    + exfalso. eapply Exists_exists in Hlater as (y & Hy & HPy).
      eapply Forall_forall in Hnone; [|exact Hy]. done.
Qed.

(** The entry of the last heading with a given title. *)
Lemma parse_sections_last text pre h post t :
  splitlines text = pre ++ h :: post ->
  heading_title h = Some t ->
  Forall (fun l => heading_title l <> Some t) post ->
  parse_sections text !! t = Some (strip (join nl (section_body post))).
Proof.
  intros Hlines Hh Hpost. unfold parse_sections. rewrite Hlines.
  rewrite fold_left_app. simpl.
  set (st1 := fold_left split_step pre split_init).
  assert (Hclosed : buffer_closed st1) by (by apply fold_split_closed).
  rewrite (split_step_heading _ _ _ Hh).
  set (st2 := after_heading st1 t).
  assert (Hbuf : buffer st2 = []).
  { unfold st2, after_heading. simpl.
    destruct (current_heading st1) eqn:Hc; [done | by apply Hclosed]. }
  destruct (section_body_split post) as (rest & Heq & Hbody & Hrest).
  rewrite Heq at 1. rewrite fold_left_app.
  rewrite (fold_split_body _ st2 t) by done. rewrite Hbuf. simpl.
  destruct Hrest as [-> | (h' & t' & r & -> & Hh')].
  - simpl. unfold split_finish, flush. simpl. apply lookup_insert_eq.
  - simpl. rewrite (split_step_heading _ _ _ Hh').
    assert (Hin : Forall (fun l => heading_title l <> Some t) (h' :: r)).
    { rewrite Heq in Hpost. by apply Forall_app in Hpost as [_ ?]. }
    inversion Hin as [|? ? Hne Hr]; subst.
    rewrite fold_split_other; [|simpl; congruence | done].
    unfold after_heading, flush. simpl. apply lookup_insert_eq.
Qed.

Lemma heading_title_marked (ws : pystr) (k : nat) (sp : N) (rest : pystr) :
  all_space ws -> (1 <= k <= 6)%nat -> isspace sp = true -> strip rest <> [] ->
  heading_title (ws ++ replicate k 0x23 ++ sp :: rest) = Some (strip rest).
Proof.
  intros Hws Hk Hsp Hrest. unfold heading_title.
  rewrite strip_heading_line by (done || lia).
  rewrite heading_match_hashes by done.
  rewrite lstrip_rstrip. change (rstrip (lstrip rest)) with (strip rest).
  by rewrite strip_idemp.
Qed.

(** The body of a section stops at the next heading line. *)
Lemma section_body_until body h t post :
  Forall (fun l => heading_title l = None) body ->
  heading_title h = Some t ->
  section_body (body ++ h :: post) = body.
Proof.
  intros Hbody Hh. induction Hbody as [|l body Hl _ IH]; simpl.
  - unfold is_heading. by rewrite Hh.
  - unfold is_heading. by rewrite Hl, IH.
Qed.

End Splitter.

(** One step of the loop on an indented heading line. *)
Lemma indented_heading_step
    (st : splitter) (ws : pystr) (k : nat) (sp : N) (rest : pystr) :
  all_space ws -> (1 <= k <= 6)%nat -> isspace sp = true -> strip rest <> [] ->
  split_step st (ws ++ replicate k 0x23 ++ sp :: rest) = after_heading st (strip rest)
  /\ split_step st (ws ++ replicate k 0x23 ++ sp :: rest)
     = split_step st (replicate k 0x23 ++ sp :: rest).
Proof.
  intros Hws Hk Hsp Hrest.
  pose proof (heading_title_marked ws k sp rest Hws Hk Hsp Hrest) as Ht.
  split; [by apply split_step_heading|].
  rewrite (split_step_heading _ _ _ Ht). symmetry. apply split_step_heading.
  rewrite <- Ht. symmetry. by apply heading_title_indent.
Qed.

(** C10. [parse_sections] tests each line stripped against the heading
    pattern.  So a line of the document that is one to six [#], a
    whitespace character and a text, behind any run of whitespace, is a
    heading: it opens the section of its stripped text, whose body is the
    lines that follow it; it is no line of the body of the section that was
    open before it; and the section map is the one of the document without
    the indentation. *)
Theorem indented_heading_opens_section
    (text : pystr) (pre post : list pystr)
    (ws : pystr) (k : nat) (sp : N) (rest : pystr) :
  all_space ws -> (1 <= k <= 6)%nat -> isspace sp = true -> strip rest <> [] ->
  splitlines text = pre ++ (ws ++ replicate k 0x23 ++ sp :: rest) :: post ->
  (Forall (fun l => heading_title l <> Some (strip rest)) post ->
   parse_sections text !! strip rest
   = Some (strip (join nl (section_body post))))
  /\ (forall pre0 h0 t0 body0,
        pre = pre0 ++ h0 :: body0 ->
        heading_title h0 = Some t0 ->
        Forall (fun l => heading_title l = None) body0 ->
        t0 <> strip rest ->
        Forall (fun l => heading_title l <> Some t0) post ->
        parse_sections text !! t0 = Some (strip (join nl body0)))
  /\ (forall text',
        splitlines text' = pre ++ (replicate k 0x23 ++ sp :: rest) :: post ->
        parse_sections text = parse_sections text').
Proof.
  intros Hws Hk Hsp Hrest Hlines.
  pose proof (heading_title_marked ws k sp rest Hws Hk Hsp Hrest) as Ht.
  split; [|split].
  - intros Hpost. by eapply parse_sections_last.
  - intros pre0 h0 t0 body0 -> Hh0 Hbody Hne Hpost.
    rewrite <- app_assoc, <- app_comm_cons in Hlines.
    rewrite (parse_sections_last _ _ _ _ _ Hlines Hh0).
    + by rewrite (section_body_until body0 _ (strip rest) post Hbody Ht).
    + apply Forall_app. split.
      * eapply Forall_impl; [exact Hbody|]. intros l Hl. by rewrite Hl.
      * constructor; [|done]. rewrite Ht. congruence.
  - intros text' Hlines'. unfold parse_sections.
    rewrite Hlines, Hlines', !fold_left_app. simpl.
    by destruct (indented_heading_step
                   (fold_left split_step pre split_init) ws k sp rest
                   Hws Hk Hsp Hrest) as [_ ->].
Qed.

Lemma indented_heading_opens_section_witness :
  parse_sections indented_doc !! lit "题目" = Some (lit "body")
  /\ parse_sections indented_doc !! lit "答案" = Some (lit "four")
  /\ parse_sections indented_doc
     = parse_sections (join nl [lit "# 答案"; lit "four"; lit "# 题目"; lit "body"]).
Proof.
  destruct (indented_heading_opens_section indented_doc
              [lit "# 答案"; lit "four"] [lit "body"]
              (lit "    ") 1 0x20 (lit "题目")) as (Hopens & Hbefore & Hsame).
  - repeat constructor.
  - lia.
  - reflexivity.
  - by vm_compute.
  - reflexivity.
  - split; [|split].
    + apply Hopens. repeat constructor; by vm_compute.
    + apply (Hbefore [] (lit "# 答案") (lit "答案") [lit "four"]).
      * reflexivity.
      * reflexivity.
      * repeat constructor.
      * by vm_compute.
      * repeat constructor; by vm_compute.
    + apply Hsame. reflexivity.
Defined.

Example indented_heading_document :
  parse_sections (lit "    # 题目" ++ nl ++ lit "body")
  = {[ lit "题目" := lit "body" ]}.
Proof. by vm_compute. Qed.

(** C8. The section map binds a title to the body under the last heading
    line with that title, whatever came under earlier ones, and every body
    it stores is the lines up to the next heading, joined by line feeds and
    stripped. *)
Theorem parse_sections_last_wins (text : pystr) (pre : list pystr)
    (h : pystr) (post : list pystr) (t : pystr) :
  splitlines text = pre ++ h :: post ->
  heading_title h = Some t ->
  Forall (fun l => heading_title l <> Some t) post ->
  parse_sections text !! t = Some (strip (join nl (section_body post)))
  /\ forall t' b,
       parse_sections text !! t' = Some b ->
       exists pre' h' post',
         splitlines text = pre' ++ h' :: post'
         /\ heading_title h' = Some t'
         /\ Forall (fun l => heading_title l <> Some t') post'
         /\ b = strip (join nl (section_body post')).
Proof.
  intros Hlines Hh Hpost. split; [by eapply parse_sections_last|].
  clear. intros t' b Hb.
  destruct (decide (Exists (fun l => heading_title l = Some t') (splitlines text)))
    as [Hex|Hnone].
  - apply last_occurrence in Hex as (pre' & h' & post' & Heq & Hh' & Hpost');
      [|intros x; apply _].
    exists pre', h', post'. repeat split; try done.
    rewrite (parse_sections_last _ _ _ _ _ Heq Hh' Hpost') in Hb. congruence.
  - apply not_Exists_Forall in Hnone; [|intros x; apply _].
    unfold parse_sections in Hb.
    rewrite fold_split_other in Hb; [|done..].
    simpl in Hb. by rewrite lookup_empty in Hb.
Qed.

Lemma parse_sections_last_wins_witness :
  parse_sections duplicate_doc !! lit "A" = Some (lit "second" ++ nl ++ lit "more").
Proof.
  apply (parse_sections_last_wins duplicate_doc
           [lit "# A"; lit "first"; lit "# B"; lit "other"]
           (lit "# A") [lit "second"; lit "more"] (lit "A")).
  - reflexivity.
  - reflexivity.
  - repeat constructor; by vm_compute.
Defined.

(** ** Sorting the names of the missing sections *)

Lemma elem_of_insert_sorted (x y : pystr) (l : list pystr) :
  y ∈ insert_sorted x l <-> y = x \/ y ∈ l.
Proof.
  induction l as [|z l IH]; simpl.
  - rewrite list_elem_of_singleton, elem_of_nil. tauto.
  - destruct (ltb z x); rewrite !elem_of_cons; [rewrite IH|]; tauto.
Qed.

Lemma elem_of_sorted (y : pystr) (l : list pystr) : y ∈ sorted l <-> y ∈ l.
Proof.
  unfold sorted. induction l as [|x l IH]; simpl; [done|].
  rewrite elem_of_insert_sorted, elem_of_cons, IH. tauto.
Qed.

Lemma NoDup_insert_sorted (x : pystr) (l : list pystr) :
  x ∉ l -> NoDup l -> NoDup (insert_sorted x l).
Proof.
  induction l as [|z l IH]; simpl; intros Hx Hl.
  - apply NoDup_singleton.
  - destruct (ltb z x); [|by constructor].
    destruct (proj1 (NoDup_cons _ _) Hl) as [Hz Hl'].
    destruct (proj1 (not_elem_of_cons _ _ _) Hx) as [Hxz Hx'].
    constructor; [|by apply IH].
    rewrite elem_of_insert_sorted.
    intros [Heq | Hin]; [by apply Hxz | by apply Hz].
Qed.

Lemma NoDup_sorted (l : list pystr) : NoDup l -> NoDup (sorted l).
Proof.
  unfold sorted. induction 1 as [|x l Hx Hl IH]; simpl; [constructor|].
  apply NoDup_insert_sorted; [|done]. by rewrite elem_of_sorted.
Qed.

(** ** Payload builder *)

Section Payload.

Context {E : Externals}.

Local Arguments lit : simpl never.
Local Arguments strip : simpl never.
Local Arguments parse_sections : simpl never.
Local Arguments parse_attributes : simpl never.

Lemma required_headings_NoDup : NoDup required_headings.
Proof. apply (bool_decide_unpack _). by vm_compute. Qed.

Lemma elem_of_missing_headings (m : gmap pystr pystr) (h : pystr) :
  h ∈ missing_headings m <-> h ∈ required_headings /\ m !! h = None.
Proof.
  unfold missing_headings. rewrite list_elem_of_filter.
  rewrite bool_decide_spec. tauto.
Qed.

Lemma missing_nil_present (m : gmap pystr pystr) (h : pystr) :
  missing_headings m = [] -> h ∈ required_headings -> is_Some (m !! h).
Proof.
  intros Hnil Hh. destruct (m !! h) eqn:Hm; [by eexists|].
  assert (h ∈ missing_headings m) as Hin by by apply elem_of_missing_headings.
  rewrite Hnil in Hin. by apply elem_of_nil in Hin.
Qed.

Lemma getitem_Some (m : gmap pystr pystr) k v : m !! k = Some v -> getitem m k = Ok v.
Proof. intros H. unfold getitem. by rewrite H. Qed.

Lemma build_payload_present md_path q a an ex kn at' :
  let sections := parse_sections (read_text md_path) in
  sections !! lit "题目" = Some q ->
  sections !! lit "答案" = Some a ->
  sections !! lit "分析" = Some an ->
  sections !! lit "详解" = Some ex ->
  sections !! lit "知识点" = Some kn ->
  sections !! lit "属性" = Some at' ->
  build_payload md_path = assemble md_path q a an ex kn at'.
Proof.
  intros sections Hq Ha Han Hex Hkn Hat.
  assert (Hmiss : missing_headings sections = []).
  { unfold missing_headings, required_headings.
    rewrite !filter_cons, filter_nil.
    rewrite Hq, Ha, Han, Hex, Hkn, Hat.
    repeat (rewrite decide_False by (rewrite bool_decide_spec; congruence)).
    done. }
  unfold build_payload, assemble. fold sections. rewrite Hmiss.
  cbn [truthy].
  rewrite (getitem_Some _ _ _ Hq), (getitem_Some _ _ _ Ha),
    (getitem_Some _ _ _ Han), (getitem_Some _ _ _ Hex),
    (getitem_Some _ _ _ Hkn), (getitem_Some _ _ _ Hat).
  cbn [fmap result_fmap mbind result_bind].
  destruct (read_attributes (parse_attributes at')) as [[qt acc]|e]; done.
Qed.

Lemma build_payload_complete md_path :
  missing_headings (parse_sections (read_text md_path)) = [] ->
  exists q a an ex kn at',
    parse_sections (read_text md_path) !! lit "题目" = Some q
    /\ parse_sections (read_text md_path) !! lit "答案" = Some a
    /\ parse_sections (read_text md_path) !! lit "属性" = Some at'
    /\ build_payload md_path = assemble md_path q a an ex kn at'.
Proof.
  intros Hnil.
  assert (Hreq : forall h, h ∈ required_headings ->
                  is_Some (parse_sections (read_text md_path) !! h))
    by (intros h; by apply missing_nil_present).
  destruct (Hreq (lit "题目")) as [q Hq]; [unfold required_headings; set_solver|].
  destruct (Hreq (lit "答案")) as [a Ha]; [unfold required_headings; set_solver|].
  destruct (Hreq (lit "分析")) as [an Han]; [unfold required_headings; set_solver|].
  destruct (Hreq (lit "详解")) as [ex Hex]; [unfold required_headings; set_solver|].
  destruct (Hreq (lit "知识点")) as [kn Hkn]; [unfold required_headings; set_solver|].
  destruct (Hreq (lit "属性")) as [at' Hat]; [unfold required_headings; set_solver|].
  exists q, a, an, ex, kn, at'. repeat split; try done.
  by apply build_payload_present.
Qed.

Lemma build_payload_missing md_path :
  missing_headings (parse_sections (read_text md_path)) <> [] ->
  build_payload md_path =
  Raise (ValueError
           (lit "Markdown file is missing sections: "
            ++ join (lit ", ")
                 (sorted (missing_headings (parse_sections (read_text md_path)))))).
Proof.
  intros Hne. unfold build_payload.
  by destruct (missing_headings (parse_sections (read_text md_path))).
Qed.

(** The three ways the [try] statement ends. *)
Lemma read_attributes_cases (attributes : gmap pystr pystr) :
  match attributes !! lit "question_type", attributes !! lit "accuracy" with
  | None, _ =>
      read_attributes attributes
      = Raise (ValueError (lit "Missing attribute: 'question_type'"))
  | Some _, None =>
      read_attributes attributes
      = Raise (ValueError (lit "Missing attribute: 'accuracy'"))
  | Some qt, Some v =>
      match py_float v with
      | None =>
          read_attributes attributes
          = Raise (ValueError (lit "Accuracy must be a float."))
      | Some acc => read_attributes attributes = Ok (qt, acc)
      end
  end.
Proof.
  unfold read_attributes, getitem.
  destruct (attributes !! lit "question_type") as [qt|]; [|done].
  destruct (attributes !! lit "accuracy") as [v|]; [|done].
  cbn [mbind result_bind]. by destruct (py_float v).
Qed.




End Payload.

(** ** The claims on [build_payload] and [main] *)

Section PayloadClaims.

Context {E : Externals}.

Local Arguments lit : simpl never.
Local Arguments strip : simpl never.
Local Arguments parse_sections : simpl never.
Local Arguments parse_attributes : simpl never.

(** C3. When a required heading is absent from the section map,
    [build_payload] raises a [ValueError] whose message lists, after its
    fixed opening, the names of the absent required headings: each of them
    once, and no other name. *)
Theorem missing_sections_named (md_path : Path) :
  (exists h, h ∈ required_headings
             /\ parse_sections (read_text md_path) !! h = None) ->
  exists names,
    build_payload md_path
    = Raise (ValueError (lit "Markdown file is missing sections: "
                         ++ join (lit ", ") names))
    /\ NoDup names
    /\ forall h, h ∈ names <->
                 h ∈ required_headings
                 /\ parse_sections (read_text md_path) !! h = None.
Proof.
  intros (h & Hreq & Hnone).
  exists (sorted (missing_headings (parse_sections (read_text md_path)))).
  split; [|split].
  - apply build_payload_missing. intros Hnil.
    assert (h ∈ missing_headings (parse_sections (read_text md_path))) as Hin
      by by apply elem_of_missing_headings.
    rewrite Hnil in Hin. by apply elem_of_nil in Hin.
  - apply NoDup_sorted. unfold missing_headings.
    apply NoDup_filter, required_headings_NoDup.
  - intros h'. rewrite elem_of_sorted. apply elem_of_missing_headings.
Qed.



(** C2, amended. With the six headings, with [question_type] and an
    [accuracy] that [float] accepts among the attributes, with a Question
    that renders to some HTML, an Answer that gives a fragment, and a
    filename stem that [int] accepts, [build_payload] returns a record
    whose [question_id] is that integer. *)
Theorem question_id_is_stem (md_path : Path) (q a at' qt v : pystr)
    (acc : float) (n : Z) :
  missing_headings (parse_sections (read_text md_path)) = [] ->
  parse_sections (read_text md_path) !! lit "题目" = Some q ->
  parse_sections (read_text md_path) !! lit "答案" = Some a ->
  parse_sections (read_text md_path) !! lit "属性" = Some at' ->
  parse_attributes at' !! lit "question_type" = Some qt ->
  parse_attributes at' !! lit "accuracy" = Some v ->
  py_float v = Some acc ->
  markdown_to_html q <> [] ->
  markdown_to_text_list a <> [] ->
  py_int (stem md_path) = Some n ->
  exists p, build_payload md_path = Ok p /\ question_id p = n.
Proof.
  intros Hnil Hq Ha Hat Hqt Hv Hacc Hhtml Hans Hn.
  destruct (build_payload_complete md_path Hnil)
    as (q' & a' & an & ex & kn & at'' & Hq' & Ha' & Hat' & ->).
  rewrite Hq in Hq'. rewrite Ha in Ha'. rewrite Hat in Hat'.
  injection Hq' as <-. injection Ha' as <-. injection Hat' as <-.
  unfold assemble.
  pose proof (read_attributes_cases (parse_attributes at')) as Hc.
  rewrite Hqt, Hv, Hacc in Hc. rewrite Hc. cbn [mbind result_bind].
  apply truthy_true in Hhtml. apply truthy_true in Hans.
  rewrite Hhtml, Hans, Hn. cbn [negb]. eauto.
Qed.

(** C1. A file [42.md] with the six sections, Question [What is 2+2?],
    Answer [4], the other three content sections empty, and attributes
    [question_type: numeric] and [accuracy: 0.95], gives the record of the
    specification.  The libraries enter through what they return on these
    inputs: markdown-it wraps a line of plain text in a paragraph,
    the paragraph of the answer parses to one tag whose text is [4], and
    [float] and [int] read [0.95] and [42]. *)
Theorem payload_of_42 (md_path : Path) (attributes_text : pystr) (p4 : node) :
  md_render (lit "What is 2+2?") = lit "<p>What is 2+2?</p>" ++ nl ->
  md_render (lit "4") = lit "<p>4</p>" ++ nl ->
  soup_contents (lit "<p>4</p>") = [p4] ->
  view p4 = Tag (lit "p") ->
  node_get_text p4 = lit "4" ->
  py_float (lit "0.95") = Some float_0_95 ->
  py_int (lit "42") = Some 42%Z ->
  stem md_path = lit "42" ->
  parse_sections (read_text md_path) !! lit "题目" = Some (lit "What is 2+2?") ->
  parse_sections (read_text md_path) !! lit "答案" = Some (lit "4") ->
  parse_sections (read_text md_path) !! lit "分析" = Some [] ->
  parse_sections (read_text md_path) !! lit "详解" = Some [] ->
  parse_sections (read_text md_path) !! lit "知识点" = Some [] ->
  parse_sections (read_text md_path) !! lit "属性" = Some attributes_text ->
  parse_attributes attributes_text !! lit "question_type" = Some (lit "numeric") ->
  parse_attributes attributes_text !! lit "accuracy" = Some (lit "0.95") ->
  build_payload md_path
  = Ok {| question_id := 42;
          question_type := lit "numeric";
          accuracy := float_0_95;
          question := lit "<p>What is 2+2?</p>";
          answer := [lit "4"];
          analysis := [];
          explanation := [];
          knowledge := [] |}.
Proof.
  intros Hrq Hra Hsoup Hview Htext Hfloat Hint Hstem Hq Ha Han Hex Hkn Hat Hqt Hacc.
  rewrite (build_payload_present md_path _ _ _ _ _ _ Hq Ha Han Hex Hkn Hat).
  unfold assemble.
  pose proof (read_attributes_cases (parse_attributes attributes_text)) as Hc.
  rewrite Hqt, Hacc, Hfloat in Hc. rewrite Hc. cbn [mbind result_bind].
  assert (Hhtml : markdown_to_html (lit "What is 2+2?") = lit "<p>What is 2+2?</p>").
  { unfold markdown_to_html.
    change (strip (lit "What is 2+2?")) with (lit "What is 2+2?").
    change (truthy (lit "What is 2+2?")) with true. cbv iota.
    rewrite Hrq. by vm_compute. }
  assert (Hanswer : markdown_to_text_list (lit "4") = [lit "4"]).
  { unfold markdown_to_text_list.
    change (strip (lit "4")) with (lit "4").
    change (truthy (lit "4")) with true. cbv iota. cbv zeta.
    rewrite Hra.
    change (strip (lit "<p>4</p>" ++ nl)) with (lit "<p>4</p>").
    unfold walk_text. rewrite Hsoup. cbn [map concat app].
    unfold text_node_fragments. rewrite Hview, Htext. by vm_compute. }
  assert (Hel : markdown_to_html_list [] = []) by done.
  assert (Htl : markdown_to_text_list [] = []) by done.
  rewrite Hhtml, Hanswer, Hel, Htl, Hstem, Hint. by vm_compute.
Qed.

End PayloadClaims.

(** ** Markdown renderer *)

Section Renderer.

Context {E : Externals}.

Local Arguments lit : simpl never.
Local Arguments strip : simpl never.

Lemma filter_truthy_id {A} (l : list (list A)) :
  Forall (fun x => truthy x = true) l -> filter (fun x => truthy x) l = l.
Proof.
  induction 1 as [|x l Hx _ IH]; [done|].
  rewrite filter_cons, decide_True, IH; [done|]. by rewrite Hx.
Qed.

Lemma Forall_filter_truthy {A} (l : list (list A)) :
  Forall (fun x => truthy x = true) (filter (fun x => truthy x) l).
Proof.
  apply Forall_forall. intros x Hx. apply list_elem_of_filter in Hx as [Hx _].
  by apply Is_true_true.
Qed.

(** The loop of [markdown_to_text_list] appends no empty fragment. *)
Lemma text_node_fragments_truthy (n : node) :
  Forall (fun x => truthy x = true) (text_node_fragments n).
Proof.
  unfold text_node_fragments. destruct (view n) as [s|name].
  - destruct (truthy (strip s)) eqn:Hs; by repeat constructor.
  - destruct (is_list_tag name); [apply Forall_filter_truthy|].
    destruct (truthy (node_get_text n)) eqn:Ht; by repeat constructor.
Qed.

Lemma walk_text_truthy (html : pystr) :
  Forall (fun x => truthy x = true) (walk_text html).
Proof.
  unfold walk_text. induction (soup_contents html) as [|n ns IH]; simpl.
  - constructor.
  - apply Forall_app. split; [apply text_node_fragments_truthy | done].
Qed.





(** C6, on the code.  A source that is not blank but renders to the empty
    string, as a link reference definition does, gives one fragment, the
    empty string. *)
Theorem empty_html_gives_empty_fragment (source : pystr) :
  strip source <> [] ->
  strip (md_render (strip source)) = [] ->
  soup_contents [] = [] ->
  markdown_to_html_list source = [[]].
Proof.
  intros Htext Hhtml Hsoup. unfold markdown_to_html_list.
  apply truthy_true in Htext. rewrite Htext. cbv zeta.
  rewrite Hhtml, Hsoup. reflexivity.
Qed.

(** Apart from that case the result has no blank fragment. *)
Lemma html_list_no_blank (source : pystr) :
  strip (md_render (strip source)) <> [] ->
  Forall (fun fragment => strip fragment <> []) (markdown_to_html_list source).
Proof.
  intros Hhtml. unfold markdown_to_html_list.
  destruct (truthy (strip source)); [|constructor]. cbv zeta.
  set (fragments := concat (map html_node_fragments _)).
  destruct (map strip (filter _ fragments)) as [|c cs] eqn:Hc.
  - cbn [truthy]. repeat constructor. by rewrite strip_idemp.
  - cbn [truthy]. rewrite <- Hc. apply Forall_forall. intros x Hx.
    apply list_elem_of_fmap in Hx as (f & -> & Hf).
    apply list_elem_of_filter in Hf as [Hf _].
    rewrite strip_idemp. apply truthy_true. by apply Is_true_true.
Qed.

End Renderer.



Lemma empty_html_gives_empty_fragment_witness :
  markdown_to_html_list (E := Sample.externals) (lit "[foo]: /url") = [[]].
Proof.
  apply (empty_html_gives_empty_fragment (E := Sample.externals) (lit "[foo]: /url")).
  - by vm_compute.
  - reflexivity.
  - reflexivity.
Defined.


(** ** The claims at concrete documents *)

Lemma missing_sections_named_witness :
  exists names,
    build_payload (E := Sample.externals)
      {| stem := lit "42"; read_text := doc_two_missing |}
    = Raise (ValueError (lit "Markdown file is missing sections: "
                         ++ join (lit ", ") names))
    /\ NoDup names
    /\ forall h, h ∈ names <->
                 h ∈ required_headings /\ parse_sections doc_two_missing !! h = None.
Proof.
  apply (missing_sections_named (E := Sample.externals)
           {| stem := lit "42"; read_text := doc_two_missing |}).
  exists (lit "属性"). split; [|reflexivity].
  unfold required_headings. do 5 apply list_elem_of_further.
  apply list_elem_of_here.
Defined.

Example missing_sections_message :
  build_payload (E := Sample.externals)
    {| stem := lit "42"; read_text := doc_two_missing |}
  = Raise (ValueError (lit "Markdown file is missing sections: 分析, 属性")).
Proof. by vm_compute. Qed.


Example missing_question_type_message :
  build_payload (E := Sample.externals)
    {| stem := lit "42"; read_text := doc_no_attributes |}
  = Raise (ValueError (lit "Missing attribute: 'question_type'")).
Proof. by vm_compute. Qed.


Lemma question_id_is_stem_witness :
  exists p,
    build_payload (E := Sample.externals)
      {| stem := lit "42"; read_text := sample_doc |} = Ok p
    /\ question_id p = 42%Z.
Proof.
  apply (question_id_is_stem (E := Sample.externals)
           {| stem := lit "42"; read_text := sample_doc |}
           (lit "What is 2+2?") (lit "4")
           (join nl [lit "question_type: numeric"; lit "accuracy: 0.95"])
           (lit "numeric") (lit "0.95") float_0_95 42%Z);
    try reflexivity; by vm_compute.
Defined.

(** C2 as stated fails: this document has the six headings and a Question
    and an Answer that are not empty, but no attribute, and [build_payload]
    raises, whatever the libraries do. *)
Lemma complete_sections_do_not_suffice :
  missing_headings (parse_sections doc_no_attributes) = []
  /\ parse_sections doc_no_attributes !! lit "题目" = Some (lit "What is 2+2?")
  /\ parse_sections doc_no_attributes !! lit "答案" = Some (lit "4")
  /\ forall E : Externals,
       build_payload (E := E) {| stem := lit "42"; read_text := doc_no_attributes |}
       = Raise (ValueError (lit "Missing attribute: 'question_type'")).
Proof.
  split; [by vm_compute|]. split; [by vm_compute|]. split; [by vm_compute|].
  intros E. by vm_compute.
Qed.

Lemma payload_of_42_witness :
  build_payload (E := Sample.externals)
    {| stem := lit "42"; read_text := sample_doc |}
  = Ok {| question_id := 42;
          question_type := lit "numeric";
          accuracy := float_0_95;
          question := lit "<p>What is 2+2?</p>";
          answer := [lit "4"];
          analysis := [];
          explanation := [];
          knowledge := [] |}.
Proof.
  apply (payload_of_42 (E := Sample.externals)
           {| stem := lit "42"; read_text := sample_doc |}
           (join nl [lit "question_type: numeric"; lit "accuracy: 0.95"])
           (Sample.STag (lit "p") [Sample.SString (lit "4")]));
    reflexivity.
Defined.

(** * Further properties of the script *)

(** ** More on stripping *)

Section StripMore.

Implicit Types (s a b : pystr) (c x : N).

Lemma length_lstrip_le s : (length (lstrip s) <= length s)%nat.
Proof.
  induction s as [|c t IH]; simpl; [lia|].
  destruct (isspace c); simpl; lia.
Qed.

Lemma length_rstrip_le s : (length (rstrip s) <= length s)%nat.
Proof.
  unfold rstrip. rewrite length_rev.
  etransitivity; [apply length_lstrip_le|]. by rewrite length_rev.
Qed.

Lemma rstrip_app_space a ws : all_space ws -> rstrip (a ++ ws) = rstrip a.
Proof.
  intros Hws. unfold rstrip. rewrite rev_app_distr.
  rewrite lstrip_app_space; [done|]. by apply Forall_rev.
Qed.

Lemma rstrip_strip s : rstrip (strip s) = strip s.
Proof. unfold strip. apply rstrip_idemp. Qed.

Lemma strip_lstrip s : strip (lstrip s) = strip s.
Proof. unfold strip. by rewrite lstrip_idemp. Qed.

Lemma strip_rstrip s : strip (rstrip s) = strip s.
Proof. unfold strip. by rewrite <- lstrip_rstrip, rstrip_idemp, lstrip_rstrip. Qed.

Lemma lstrip_app_keep a c b :
  isspace c = false -> lstrip (a ++ c :: b) = lstrip a ++ c :: b.
Proof.
  intros Hc. induction a as [|d a IH]; simpl; [by rewrite Hc|].
  by destruct (isspace d).
Qed.

Lemma rstrip_cons_keep c b : isspace c = false -> rstrip (c :: b) = c :: rstrip b.
Proof. intros Hc. rewrite rstrip_cons, Hc. by destruct (rstrip b). Qed.

Lemma strip_around c a b :
  isspace c = false -> strip (a ++ c :: b) = lstrip a ++ c :: rstrip b.
Proof.
  intros Hc. unfold strip. rewrite (lstrip_app_keep a c b Hc).
  rewrite rstrip_app_keep; rewrite (rstrip_cons_keep c b Hc); done.
Qed.

Lemma elem_of_lstrip x s : x ∈ lstrip s -> x ∈ s.
Proof.
  induction s as [|c t IH]; simpl; [done|].
  destruct (isspace c); [|done]. intros H. right. by apply IH.
Qed.

Lemma elem_of_rev x s : x ∈ rev s <-> x ∈ s.
Proof. rewrite !list_elem_of_In. symmetry. apply in_rev. Qed.

Lemma elem_of_rstrip x s : x ∈ rstrip s -> x ∈ s.
Proof.
  unfold rstrip. rewrite elem_of_rev. intros H.
  apply elem_of_rev. by apply elem_of_lstrip.
Qed.

Lemma elem_of_strip x s : x ∈ strip s -> x ∈ s.
Proof. unfold strip. intros H. by apply elem_of_lstrip, elem_of_rstrip. Qed.

Lemma rstrip_hashes k : rstrip (replicate k 0x23) = replicate k 0x23.
Proof.
  induction k as [|k IH]; [done|]. simpl replicate.
  by rewrite rstrip_cons_keep, IH.
Qed.

Lemma strip_hashes k : strip (replicate k 0x23) = replicate k 0x23.
Proof.
  unfold strip. destruct k as [|k]; [done|].
  simpl replicate. rewrite lstrip_fix by done. apply (rstrip_hashes (S k)).
Qed.

Lemma split_once_app sep a b :
  sep ∉ a -> split_once sep (a ++ sep :: b) = Some (a, b).
Proof.
  induction a as [|c a IH]; intros Hsep; simpl.
  - by rewrite N.eqb_refl.
  - apply not_elem_of_cons in Hsep as [Hne Hsep].
    destruct (N.eqb_spec c sep) as [->|_]; [done|]. by rewrite IH.
Qed.

Lemma split_once_None sep s : sep ∉ s -> split_once sep s = None.
Proof.
  induction s as [|c s IH]; intros Hsep; simpl; [done|].
  apply not_elem_of_cons in Hsep as [Hne Hsep].
  destruct (N.eqb_spec c sep) as [->|_]; [done|]. by rewrite IH.
Qed.

End StripMore.

(** ** More on the section splitter *)

Section SplitterMore.

Implicit Types (st : splitter) (l line : pystr) (lines : list pystr).

Lemma count_hashes_all k : count_hashes (replicate k 0x23) = k.
Proof. induction k as [|k IH]; simpl; [done | by rewrite IH]. Qed.

Lemma count_hashes_ge k (r : pystr) :
  (k <= count_hashes (replicate k 0x23%N ++ r))%nat.
Proof. induction k as [|k IH]; simpl; lia. Qed.

Lemma heading_match_many l :
  (6 < count_hashes l)%nat -> heading_match l = None.
Proof.
  intros H. unfold heading_match.
  replace (count_hashes l <=? 6)%nat with false
    by (symmetry; apply Nat.leb_gt; lia).
  by rewrite andb_false_r.
Qed.

(** The title of a heading is not empty and has no whitespace around. *)
Lemma heading_title_nonempty l t :
  heading_title l = Some t -> t <> [] /\ strip t = t.
Proof.
  unfold heading_title, heading_match.
  set (n := count_hashes (strip l)).
  destruct ((1 <=? n)%nat && (n <=? 6)%nat); [|done].
  destruct (drop n (strip l)) as [|c rest] eqn:Hd; [done|].
  destruct (isspace c) eqn:Hc; [|done].
  intros [= <-]. split; [|apply strip_idemp].
  rewrite strip_lstrip. intros Hnil. apply strip_nil_iff in Hnil.
  pose proof (take_drop n (strip l)) as Hsplit. rewrite Hd in Hsplit.
  pose proof (rstrip_strip l) as Hfix. rewrite <- Hsplit in Hfix at 1.
  rewrite rstrip_app_space in Hfix by (by constructor).
  pose proof (length_rstrip_le (take n (strip l))) as Hlen.
  rewrite Hfix, <- Hsplit in Hlen.
  rewrite length_app in Hlen.
  assert (take n (take n (strip l) ++ c :: rest) = take n (strip l)) as Ht
    by (by rewrite Hsplit).
  rewrite Ht in Hlen. simpl in Hlen. lia.
Qed.

Lemma fold_split_preamble pre :
  Forall (fun l => heading_title l = None) pre ->
  fold_left split_step pre split_init = split_init.
Proof.
  induction 1 as [|l pre Hl _ IH]; [done|].
  simpl. by rewrite (split_step_body _ _ Hl).
Qed.

(** Where an entry of the section map comes from. *)
Lemma parse_sections_entry text t b :
  parse_sections text !! t = Some b ->
  exists pre h post,
    splitlines text = pre ++ h :: post
    /\ heading_title h = Some t
    /\ Forall (fun l => heading_title l <> Some t) post
    /\ b = strip (join nl (section_body post)).
Proof.
  intros Hb.
  destruct (decide (Exists (fun l => heading_title l = Some t) (splitlines text)))
    as [Hex|Hnone].
  - apply last_occurrence in Hex as (pre & h & post & Heq & Hh & Hpost);
      [|intros x; apply _].
    exists pre, h, post. repeat split; try done.
    rewrite (parse_sections_last _ _ _ _ _ Heq Hh Hpost) in Hb. congruence.
  - apply not_Exists_Forall in Hnone; [|intros x; apply _].
    unfold parse_sections in Hb.
    rewrite fold_split_other in Hb; [|done..].
    simpl in Hb. by rewrite lookup_empty in Hb.
Qed.

(** X1. The keys of the section map are the titles of the heading lines of
    the document, and nothing else. *)
Theorem section_map_keys (text t : pystr) :
  is_Some (parse_sections text !! t)
  <-> Exists (fun l => heading_title l = Some t) (splitlines text).
Proof.
  split.
  - intros [b Hb].
    destruct (parse_sections_entry text t b Hb) as (pre & h & post & Heq & Hh & _).
    rewrite Heq. apply Exists_app. right. by constructor.
  - intros Hex.
    apply last_occurrence in Hex as (pre & h & post & Heq & Hh & Hpost);
      [|intros x; apply _].
    rewrite (parse_sections_last _ _ _ _ _ Heq Hh Hpost). by eexists.
Qed.

Lemma section_map_keys_witness :
  is_Some (parse_sections duplicate_doc !! lit "B").
Proof.
  apply (section_map_keys duplicate_doc (lit "B")).
  apply Exists_cons_tl, Exists_cons_tl, Exists_cons_hd. reflexivity.
Defined.

(** X2. No title in the section map is empty, and neither the titles nor
    the bodies have whitespace at either end. *)
Theorem section_map_stripped (text t b : pystr) :
  parse_sections text !! t = Some b ->
  t <> [] /\ strip t = t /\ strip b = b.
Proof.
  intros Hb.
  destruct (parse_sections_entry text t b Hb) as (pre & h & post & _ & Hh & _ & ->).
  destruct (heading_title_nonempty h t Hh) as [Hne Hst].
  repeat split; try done. apply strip_idemp.
Qed.

Lemma section_map_stripped_witness :
  lit "A" <> [] /\ strip (lit "A") = lit "A"
  /\ strip (lit "second" ++ nl ++ lit "more") = lit "second" ++ nl ++ lit "more".
Proof.
  apply (section_map_stripped duplicate_doc (lit "A")
           (lit "second" ++ nl ++ lit "more")).
  reflexivity.
Defined.

(** X3. The lines before the first heading are discarded: a document and
    the same document without that opening text have the same section
    map. *)
Theorem preamble_discarded (text text' : pystr) (pre : list pystr) :
  splitlines text = pre ++ splitlines text' ->
  Forall (fun l => heading_title l = None) pre ->
  parse_sections text = parse_sections text'.
Proof.
  intros Heq Hpre. unfold parse_sections.
  by rewrite Heq, fold_left_app, (fold_split_preamble pre Hpre).
Qed.

Lemma preamble_discarded_witness :
  parse_sections preamble_doc = parse_sections (lit "# A" ++ nl ++ lit "x").
Proof.
  apply (preamble_discarded preamble_doc (lit "# A" ++ nl ++ lit "x")
           [lit "intro"; lit "more"]).
  - reflexivity.
  - repeat constructor.
Defined.

(** X4. A line of [#] characters alone, with whitespace around or not, is
    no heading: with a section open it is one more line of its body. *)
Theorem bare_marker_is_body (ws ws' : pystr) (k : nat) :
  all_space ws -> all_space ws' ->
  heading_title (ws ++ replicate k 0x23 ++ ws') = None
  /\ forall st h,
       current_heading st = Some h ->
       split_step st (ws ++ replicate k 0x23 ++ ws')
       = {| sections := sections st; current_heading := Some h;
            buffer := buffer st ++ [ws ++ replicate k 0x23 ++ ws'] |}.
Proof.
  intros Hws Hws'.
  assert (Hnone : heading_title (ws ++ replicate k 0x23 ++ ws') = None).
  { unfold heading_title. rewrite strip_app_space by done.
    assert (strip (replicate k 0x23 ++ ws') = replicate k 0x23) as ->.
    { unfold strip. rewrite <- lstrip_rstrip, rstrip_app_space by done.
      rewrite lstrip_rstrip. apply strip_hashes. }
    unfold heading_match. rewrite count_hashes_all.
    rewrite drop_ge by (by rewrite length_replicate).
    by destruct ((1 <=? k)%nat && (k <=? 6)%nat). }
  split; [done|]. intros st h Hcur.
  by rewrite (split_step_body _ _ Hnone), Hcur.
Qed.

Lemma bare_marker_is_body_witness :
  heading_title (lit "  ## ") = None.
Proof.
  apply (bare_marker_is_body (lit "  ") (lit " ") 2); by repeat constructor.
Defined.

(** X5. A line that starts with more than six [#] is no heading, whatever
    follows them. *)
Theorem long_marker_is_body (ws rest : pystr) (k : nat) :
  all_space ws -> (6 < k)%nat ->
  heading_title (ws ++ replicate k 0x23 ++ rest) = None.
Proof.
  intros Hws Hk. unfold heading_title. rewrite strip_app_space by done.
  rewrite heading_match_many; [done|].
  assert (exists r, strip (replicate k 0x23 ++ rest) = replicate k 0x23 ++ r)
    as [r ->]; [|pose proof (count_hashes_ge k r); lia].
  unfold strip. destruct k as [|k]; [lia|].
  simpl replicate. rewrite <- app_comm_cons, lstrip_fix by done.
  rewrite app_comm_cons. change (0x23 :: replicate k 0x23) with (replicate (S k) 0x23).
  destruct (rstrip rest) as [|c r] eqn:Hr.
  - exists []. apply rstrip_nil_iff in Hr.
    rewrite rstrip_app_space by done. rewrite app_nil_r. apply rstrip_hashes.
  - exists (c :: r). rewrite rstrip_app_keep; [by rewrite Hr | by rewrite Hr].
Qed.

Lemma long_marker_is_body_witness :
  heading_title (lit "####### seven") = None.
Proof.
  apply (long_marker_is_body [] (lit " seven") 7); [constructor | lia].
Defined.

End SplitterMore.

(** ** Attribute parser *)

Section Attributes.

Implicit Types (m : gmap pystr pystr) (l line k v : pystr) (lines : list pystr).

Lemma attr_step_entry m line :
  attr_step m line
  = match attr_entry line with
    | Some (k, v) => <[k := v]> m
    | None => m
    end.
Proof.
  unfold attr_step, attr_entry. destruct (truthy (strip line)); [|done].
  by destruct (split_once 0x3A (strip line)) as [[key value]|].
Qed.

Lemma fold_attr_other lines m k :
  Forall (fun l => attr_key l <> Some k) lines ->
  fold_left attr_step lines m !! k = m !! k.
Proof.
  revert m. induction lines as [|l lines IH]; intros m Hall; [done|].
  inversion Hall as [|? ? Hl Hrest]; subst. simpl.
  rewrite IH by done. rewrite attr_step_entry.
  unfold attr_key in Hl. destruct (attr_entry l) as [[k' v']|]; [|done].
  apply lookup_insert_ne. congruence.
Qed.

Lemma parse_attributes_last text pre l post k v :
  splitlines text = pre ++ l :: post ->
  attr_entry l = Some (k, v) ->
  Forall (fun l' => attr_key l' <> Some k) post ->
  parse_attributes text !! k = Some v.
Proof.
  intros Heq Hl Hpost. unfold parse_attributes.
  rewrite Heq, fold_left_app. simpl.
  rewrite fold_attr_other by done.
  rewrite attr_step_entry, Hl. apply lookup_insert_eq.
Qed.

Lemma attribute_last_wins_entry text k v :
  parse_attributes text !! k = Some v -> exists l, attr_entry l = Some (k, v).
Proof.
  intros Hv.
  destruct (decide (Exists (fun l => attr_key l = Some k) (splitlines text)))
    as [Hex|Hnone].
  - apply last_occurrence in Hex as (pre & l & post & Heq & Hl & Hpost);
      [|intros x; apply _].
    exists l. unfold attr_key in Hl.
    destruct (attr_entry l) as [[k' v']|] eqn:He; [|done].
    injection Hl as ->.
    rewrite (parse_attributes_last _ _ _ _ _ _ Heq He Hpost) in Hv. congruence.
  - apply not_Exists_Forall in Hnone; [|intros x; apply _].
    unfold parse_attributes in Hv.
    rewrite fold_attr_other in Hv by done. by rewrite lookup_empty in Hv.
Qed.

(** X6. The attributes bind a key to the value of the last line that sets
    it, and hold no other entry: lines without a colon and blank lines set
    nothing. *)
Theorem attribute_last_wins (text k v : pystr) :
  parse_attributes text !! k = Some v
  <-> exists pre l post,
        splitlines text = pre ++ l :: post
        /\ attr_entry l = Some (k, v)
        /\ Forall (fun l' => attr_key l' <> Some k) post.
Proof.
  split.
  - intros Hv.
    destruct (decide (Exists (fun l => attr_key l = Some k) (splitlines text)))
      as [Hex|Hnone].
    + apply last_occurrence in Hex as (pre & l & post & Heq & Hl & Hpost);
        [|intros x; apply _].
      exists pre, l, post. split; [done|]. split; [|done].
      unfold attr_key in Hl.
      destruct (attr_entry l) as [[k' v']|] eqn:He; [|done].
      injection Hl as ->.
      rewrite (parse_attributes_last _ _ _ _ _ _ Heq He Hpost) in Hv. congruence.
    + apply not_Exists_Forall in Hnone; [|intros x; apply _].
      unfold parse_attributes in Hv.
      rewrite fold_attr_other in Hv by done. by rewrite lookup_empty in Hv.
  - intros (pre & l & post & Heq & Hl & Hpost).
    by eapply parse_attributes_last.
Qed.

Lemma attribute_last_wins_witness :
  parse_attributes attrs_twice !! lit "accuracy" = Some (lit "0.95").
Proof.
  apply (attribute_last_wins attrs_twice (lit "accuracy") (lit "0.95")).
  exists [lit "accuracy: 0.5"; lit "a note"], (lit "accuracy: 0.95"), [].
  split; [reflexivity|]. split; [reflexivity | constructor].
Defined.

(** X7. A line is split at its first colon only: what is before it,
    stripped, is the key, and all that follows, further colons included and
    stripped, is the value. *)
Theorem attribute_line_split (m : gmap pystr pystr) (k v : pystr) :
  0x3A ∉ k ->
  attr_step m (k ++ 0x3A :: v) = <[strip k := strip v]> m.
Proof.
  intros Hk. unfold attr_step.
  rewrite (strip_around 0x3A k v) by done.
  replace (truthy (lstrip k ++ 0x3A :: rstrip v)) with true
    by (by destruct (lstrip k)).
  rewrite split_once_app by (intros Hin; by apply Hk, elem_of_lstrip).
  by rewrite strip_lstrip, strip_rstrip.
Qed.

Lemma attribute_line_split_witness :
  attr_step ∅ (lit " url : http://x ") = {[ lit "url" := lit "http://x" ]}.
Proof.
  apply (attribute_line_split ∅ (lit " url ") (lit " http://x ")).
  apply (bool_decide_unpack _). by vm_compute.
Defined.

(** X8. A line without a colon changes nothing. *)
Theorem line_without_colon_skipped (m : gmap pystr pystr) (line : pystr) :
  0x3A ∉ line -> attr_step m line = m.
Proof.
  intros Hline. unfold attr_step.
  rewrite split_once_None by (intros Hin; by apply Hline, elem_of_strip).
  by destruct (truthy (strip line)).
Qed.

Lemma line_without_colon_skipped_witness :
  attr_step {[ lit "a" := lit "b" ]} (lit "just a note") = {[ lit "a" := lit "b" ]}.
Proof.
  apply (line_without_colon_skipped {[ lit "a" := lit "b" ]} (lit "just a note")).
  apply (bool_decide_unpack _). by vm_compute.
Defined.

End Attributes.

(** ** More on the markdown renderer *)

Section RendererMore.

Context {E : Externals}.

Local Arguments lit : simpl never.
Local Arguments strip : simpl never.

Lemma strip_app_space_r s ws : all_space ws -> strip (s ++ ws) = strip s.
Proof.
  intros Hws. unfold strip.
  by rewrite <- !lstrip_rstrip, rstrip_app_space.
Qed.

Lemma strip_between ws s ws' :
  all_space ws -> all_space ws' -> strip (ws ++ s ++ ws') = strip s.
Proof. intros H H'. by rewrite strip_app_space, strip_app_space_r. Qed.

(** X9. A source of whitespace only gives the empty string and the empty
    lists; the renderer is not consulted. *)
Theorem blank_source_renders_nothing (source : pystr) :
  all_space source ->
  markdown_to_html source = []
  /\ markdown_to_html_list source = []
  /\ markdown_to_text_list source = [].
Proof.
  intros Hblank. apply strip_nil_iff in Hblank.
  unfold markdown_to_html, markdown_to_html_list, markdown_to_text_list.
  by rewrite Hblank.
Qed.

(** X10. Whitespace before and after the source does not change what the
    three operations return. *)
Theorem surrounding_whitespace_ignored (ws source ws' : pystr) :
  all_space ws -> all_space ws' ->
  markdown_to_html (ws ++ source ++ ws') = markdown_to_html source
  /\ markdown_to_html_list (ws ++ source ++ ws') = markdown_to_html_list source
  /\ markdown_to_text_list (ws ++ source ++ ws') = markdown_to_text_list source.
Proof.
  intros Hws Hws'.
  unfold markdown_to_html, markdown_to_html_list, markdown_to_text_list.
  by rewrite (strip_between ws source ws' Hws Hws').
Qed.

(** X11. A source that is not blank gives at least one HTML fragment. *)
Theorem html_list_not_empty (source : pystr) :
  strip source <> [] -> markdown_to_html_list source <> [].
Proof.
  intros Htext. unfold markdown_to_html_list.
  apply truthy_true in Htext. rewrite Htext. cbv zeta.
  by destruct (map strip (filter _ _)).
Qed.

(** X12. When the rendered HTML is not empty, every HTML fragment is
    stripped and none is empty. *)
Theorem html_fragments_stripped (source : pystr) :
  strip (md_render (strip source)) <> [] ->
  Forall (fun fragment => fragment <> [] /\ strip fragment = fragment)
         (markdown_to_html_list source).
Proof.
  intros Hhtml.
  assert (Hst : Forall (fun fragment => strip fragment = fragment)
                       (markdown_to_html_list source)).
  { unfold markdown_to_html_list.
    destruct (truthy (strip source)); [|constructor]. cbv zeta.
    destruct (map strip (filter _ _)) as [|c cs] eqn:Hc.
    - cbn [truthy]. repeat constructor. apply strip_idemp.
    - cbn [truthy]. rewrite <- Hc. apply Forall_forall. intros x Hx.
      apply list_elem_of_fmap in Hx as (f & -> & _). apply strip_idemp. }
  pose proof (html_list_no_blank source Hhtml) as Hnb.
  apply Forall_forall. intros f Hf.
  pose proof (proj1 (Forall_forall _ _) Hst f Hf) as Hf1.
  pose proof (proj1 (Forall_forall _ _) Hnb f Hf) as Hf2.
  cbv beta in Hf1, Hf2. split; [|done]. intros ->. by apply Hf2.
Qed.

(** X13. No text fragment is empty. *)
Theorem text_fragments_not_empty (source : pystr) :
  Forall (fun fragment => fragment <> []) (markdown_to_text_list source).
Proof.
  unfold markdown_to_text_list.
  destruct (truthy (strip source)); [|constructor]. cbv zeta.
  set (cleaned := filter _ (walk_text _)).
  assert (Hcl : Forall (fun fragment : pystr => fragment <> []) cleaned).
  { eapply Forall_impl; [apply Forall_filter_truthy|].
    intros x Hx. by apply truthy_true. }
  assert (Hraw : Forall (fun fragment : pystr => fragment <> [])
                        (raw_lines (strip source))).
  { unfold raw_lines. apply Forall_forall. intros x Hx.
    apply list_elem_of_fmap in Hx as (l & -> & Hl).
    apply list_elem_of_filter in Hl as [Hl _].
    apply truthy_true. by apply Is_true_true. }
  destruct (truthy cleaned).
  - by destruct ((length cleaned =? 1)%nat && _).
  - destruct (1 <? length (raw_lines (strip source)))%nat; [done|].
    destruct (truthy (soup_get_text _)) eqn:Hf; [|constructor].
    repeat constructor. by apply truthy_true.
Qed.

(** X14. Two or more rendered fragments are returned as they are; the raw
    lines are not looked at. *)
Theorem rendered_fragments_returned (source : pystr) :
  strip source <> [] ->
  (2 <= length (walk_text (strip (md_render (strip source)))))%nat ->
  markdown_to_text_list source = walk_text (strip (md_render (strip source))).
Proof.
  intros Htext Hlen. unfold markdown_to_text_list.
  apply truthy_true in Htext. rewrite Htext. cbv zeta.
  rewrite filter_truthy_id by apply walk_text_truthy.
  destruct (walk_text (strip (md_render (strip source)))) as [|f [|g fs]];
    simpl in Hlen; try lia.
  reflexivity.
Qed.

End RendererMore.

Lemma blank_source_renders_nothing_witness :
  markdown_to_html (E := Sample.externals) (lit "  " ++ nl) = []
  /\ markdown_to_html_list (E := Sample.externals) (lit "  " ++ nl) = []
  /\ markdown_to_text_list (E := Sample.externals) (lit "  " ++ nl) = [].
Proof.
  apply (blank_source_renders_nothing (E := Sample.externals) (lit "  " ++ nl)).
  by repeat constructor.
Defined.

Lemma surrounding_whitespace_ignored_witness :
  markdown_to_html (E := Sample.externals) (nl ++ lit "4" ++ lit "  ")
  = lit "<p>4</p>"
  /\ markdown_to_html_list (E := Sample.externals) (nl ++ lit "4" ++ lit "  ")
     = [lit "<p>4</p>"]
  /\ markdown_to_text_list (E := Sample.externals) (nl ++ lit "4" ++ lit "  ")
     = [lit "4"].
Proof.
  apply (surrounding_whitespace_ignored (E := Sample.externals)
           nl (lit "4") (lit "  ")); by repeat constructor.
Defined.

Lemma html_list_not_empty_witness :
  markdown_to_html_list (E := Sample.externals) (lit "- item one") <> [].
Proof.
  apply (html_list_not_empty (E := Sample.externals) (lit "- item one")).
  by vm_compute.
Defined.

Lemma html_fragments_stripped_witness :
  Forall (fun fragment => fragment <> [] /\ strip fragment = fragment)
         (markdown_to_html_list (E := Sample.externals) (lit "- item one")).
Proof.
  apply (html_fragments_stripped (E := Sample.externals) (lit "- item one")).
  by vm_compute.
Defined.

Lemma rendered_fragments_returned_witness :
  markdown_to_text_list (E := list_externals) two_items = [lit "one"; lit "two"].
Proof.
  apply (rendered_fragments_returned (E := list_externals) two_items).
  - by vm_compute.
  - vm_compute. lia.
Defined.

(** ** More on the payload builder *)

Section PayloadMore.

Context {E : Externals}.

Local Arguments lit : simpl never.
Local Arguments strip : simpl never.
Local Arguments parse_sections : simpl never.
Local Arguments parse_attributes : simpl never.

Lemma build_payload_six md_path :
  missing_headings (parse_sections (read_text md_path)) = [] ->
  exists q a an ex kn at',
    parse_sections (read_text md_path) !! lit "题目" = Some q
    /\ parse_sections (read_text md_path) !! lit "答案" = Some a
    /\ parse_sections (read_text md_path) !! lit "分析" = Some an
    /\ parse_sections (read_text md_path) !! lit "详解" = Some ex
    /\ parse_sections (read_text md_path) !! lit "知识点" = Some kn
    /\ parse_sections (read_text md_path) !! lit "属性" = Some at'
    /\ build_payload md_path = assemble md_path q a an ex kn at'.
Proof.
  intros Hnil.
  assert (Hreq : forall h, h ∈ required_headings ->
                  is_Some (parse_sections (read_text md_path) !! h))
    by (intros h; by apply missing_nil_present).
  destruct (Hreq (lit "题目")) as [q Hq]; [unfold required_headings; set_solver|].
  destruct (Hreq (lit "答案")) as [a Ha]; [unfold required_headings; set_solver|].
  destruct (Hreq (lit "分析")) as [an Han]; [unfold required_headings; set_solver|].
  destruct (Hreq (lit "详解")) as [ex Hex]; [unfold required_headings; set_solver|].
  destruct (Hreq (lit "知识点")) as [kn Hkn]; [unfold required_headings; set_solver|].
  destruct (Hreq (lit "属性")) as [at' Hat]; [unfold required_headings; set_solver|].
  exists q, a, an, ex, kn, at'. repeat split; try done.
  by apply build_payload_present.
Qed.

Lemma read_attributes_Ok attributes qt acc :
  read_attributes attributes = Ok (qt, acc) ->
  attributes !! lit "question_type" = Some qt
  /\ exists v, attributes !! lit "accuracy" = Some v /\ py_float v = Some acc.
Proof.
  pose proof (read_attributes_cases attributes) as Hc.
  destruct (attributes !! lit "question_type") as [qt'|];
    [|rewrite Hc; done].
  destruct (attributes !! lit "accuracy") as [v|]; [|rewrite Hc; done].
  destruct (py_float v) as [acc'|] eqn:Hv; rewrite Hc; [|done].
  intros [= -> ->]. split; [done|]. by exists v.
Qed.

Lemma read_attributes_good attributes qt v acc :
  attributes !! lit "question_type" = Some qt ->
  attributes !! lit "accuracy" = Some v ->
  py_float v = Some acc ->
  read_attributes attributes = Ok (qt, acc).
Proof.
  intros Hqt Hv Hacc.
  pose proof (read_attributes_cases attributes) as Hc.
  by rewrite Hqt, Hv, Hacc in Hc.
Qed.

(** X15. What a returned record holds: the question is the rendered
    Question section and is not empty, the answer is the fragment list of
    the Answer section and is not empty, the other three lists are those of
    their sections, the type and the accuracy are those of the attributes,
    and the identifier is the integer of the filename stem. *)
Theorem returned_payload (md_path : Path) (p : payload) :
  build_payload md_path = Ok p ->
  exists q a an ex kn at' v,
    parse_sections (read_text md_path) !! lit "题目" = Some q
    /\ parse_sections (read_text md_path) !! lit "答案" = Some a
    /\ parse_sections (read_text md_path) !! lit "分析" = Some an
    /\ parse_sections (read_text md_path) !! lit "详解" = Some ex
    /\ parse_sections (read_text md_path) !! lit "知识点" = Some kn
    /\ parse_sections (read_text md_path) !! lit "属性" = Some at'
    /\ parse_attributes at' !! lit "question_type" = Some (question_type p)
    /\ parse_attributes at' !! lit "accuracy" = Some v
    /\ py_float v = Some (accuracy p)
    /\ py_int (stem md_path) = Some (question_id p)
    /\ question p = markdown_to_html q /\ question p <> []
    /\ answer p = markdown_to_text_list a /\ answer p <> []
    /\ analysis p = markdown_to_html_list an
    /\ explanation p = markdown_to_html_list ex
    /\ knowledge p = markdown_to_text_list kn.
Proof.
  intros Hok.
  destruct (decide (missing_headings (parse_sections (read_text md_path)) = []))
    as [Hnil|Hne]; [|by rewrite (build_payload_missing md_path Hne) in Hok].
  destruct (build_payload_six md_path Hnil)
    as (q & a & an & ex & kn & at' & Hq & Ha & Han & Hex & Hkn & Hat & Heq).
  rewrite Heq in Hok. unfold assemble in Hok.
  destruct (read_attributes (parse_attributes at')) as [[qt acc]|e] eqn:Hr;
    [|done].
  cbn [mbind result_bind] in Hok.
  apply read_attributes_Ok in Hr as (Hqt & v & Hv & Hacc).
  destruct (truthy (markdown_to_html q)) eqn:Hhtml; cbn [negb] in Hok; [|done].
  destruct (truthy (markdown_to_text_list a)) eqn:Hans; cbn [negb] in Hok; [|done].
  destruct (py_int (stem md_path)) as [n|] eqn:Hn; [|done].
  injection Hok as <-. cbn. apply truthy_true in Hhtml. apply truthy_true in Hans.
  exists q, a, an, ex, kn, at', v. repeat split; done.
Qed.

(** X16. With the six sections and good attributes, a Question section
    that renders to nothing is refused with its own message, whatever the
    answer and the filename are. *)
Theorem empty_question_refused (md_path : Path) (q at' qt v : pystr) (acc : float) :
  missing_headings (parse_sections (read_text md_path)) = [] ->
  parse_sections (read_text md_path) !! lit "题目" = Some q ->
  parse_sections (read_text md_path) !! lit "属性" = Some at' ->
  parse_attributes at' !! lit "question_type" = Some qt ->
  parse_attributes at' !! lit "accuracy" = Some v ->
  py_float v = Some acc ->
  markdown_to_html q = [] ->
  build_payload md_path
  = Raise (ValueError (lit "Question section cannot be empty.")).
Proof.
  intros Hnil Hq Hat Hqt Hv Hacc Hhtml.
  destruct (build_payload_six md_path Hnil)
    as (q' & a & an & ex & kn & at'' & Hq' & _ & _ & _ & _ & Hat' & ->).
  rewrite Hq in Hq'. rewrite Hat in Hat'.
  injection Hq' as <-. injection Hat' as <-.
  unfold assemble. rewrite (read_attributes_good _ _ _ _ Hqt Hv Hacc).
  cbn [mbind result_bind]. by rewrite Hhtml.
Qed.

(** X17. With the six sections, good attributes and a question, an Answer
    section that gives no fragment is refused with its own message,
    whatever the filename is. *)
Theorem empty_answer_refused (md_path : Path) (q a at' qt v : pystr) (acc : float) :
  missing_headings (parse_sections (read_text md_path)) = [] ->
  parse_sections (read_text md_path) !! lit "题目" = Some q ->
  parse_sections (read_text md_path) !! lit "答案" = Some a ->
  parse_sections (read_text md_path) !! lit "属性" = Some at' ->
  parse_attributes at' !! lit "question_type" = Some qt ->
  parse_attributes at' !! lit "accuracy" = Some v ->
  py_float v = Some acc ->
  markdown_to_html q <> [] ->
  markdown_to_text_list a = [] ->
  build_payload md_path
  = Raise (ValueError (lit "Answer section cannot be empty.")).
Proof.
  intros Hnil Hq Ha Hat Hqt Hv Hacc Hhtml Hans.
  destruct (build_payload_six md_path Hnil)
    as (q' & a' & an & ex & kn & at'' & Hq' & Ha' & _ & _ & _ & Hat' & ->).
  rewrite Hq in Hq'. rewrite Ha in Ha'. rewrite Hat in Hat'.
  injection Hq' as <-. injection Ha' as <-. injection Hat' as <-.
  unfold assemble. rewrite (read_attributes_good _ _ _ _ Hqt Hv Hacc).
  cbn [mbind result_bind]. apply truthy_true in Hhtml.
  by rewrite Hhtml, Hans.
Qed.

(** X18. The filename is looked at last: when everything else is in
    order, a stem that [int] refuses makes [build_payload] raise a
    [ValueError]. *)
Theorem bad_stem_refused (md_path : Path) (q a at' qt v : pystr) (acc : float) :
  missing_headings (parse_sections (read_text md_path)) = [] ->
  parse_sections (read_text md_path) !! lit "题目" = Some q ->
  parse_sections (read_text md_path) !! lit "答案" = Some a ->
  parse_sections (read_text md_path) !! lit "属性" = Some at' ->
  parse_attributes at' !! lit "question_type" = Some qt ->
  parse_attributes at' !! lit "accuracy" = Some v ->
  py_float v = Some acc ->
  markdown_to_html q <> [] ->
  markdown_to_text_list a <> [] ->
  py_int (stem md_path) = None ->
  exists msg, build_payload md_path = Raise (ValueError msg).
Proof.
  intros Hnil Hq Ha Hat Hqt Hv Hacc Hhtml Hans Hstem.
  destruct (build_payload_six md_path Hnil)
    as (q' & a' & an & ex & kn & at'' & Hq' & Ha' & _ & _ & _ & Hat' & ->).
  rewrite Hq in Hq'. rewrite Ha in Ha'. rewrite Hat in Hat'.
  injection Hq' as <-. injection Ha' as <-. injection Hat' as <-.
  unfold assemble. rewrite (read_attributes_good _ _ _ _ Hqt Hv Hacc).
  cbn [mbind result_bind].
  apply truthy_true in Hhtml. apply truthy_true in Hans.
  rewrite Hhtml, Hans, Hstem. cbn [negb]. eauto.
Qed.

Lemma filter_agree {A} (P Q : A -> Prop)
    `{!forall x, Decision (P x)} `{!forall x, Decision (Q x)} (l : list A) :
  (forall x, x ∈ l -> P x <-> Q x) -> filter P l = filter Q l.
Proof.
  induction l as [|x l IH]; intros Hall; [done|].
  rewrite !filter_cons.
  rewrite IH by (intros y Hy; apply Hall; by right).
  destruct (decide (P x)) as [HP|HP], (decide (Q x)) as [HQ|HQ]; try done.
  - exfalso. apply HQ. apply Hall; [by left | done].
  - exfalso. apply HP. apply Hall; [by left | done].
Qed.

Lemma assemble_stem md1 md2 q a an ex kn at' :
  stem md1 = stem md2 ->
  assemble md1 q a an ex kn at' = assemble md2 q a an ex kn at'.
Proof. intros Hstem. unfold assemble. by rewrite Hstem. Qed.

(** X19. Only the six required sections and the filename stem count: two
    files with the same stem whose section maps agree on the six required
    titles give the same result, whatever other sections they hold. *)
Theorem only_required_sections_count (md1 md2 : Path) :
  stem md1 = stem md2 ->
  (forall h, h ∈ required_headings ->
     parse_sections (read_text md1) !! h = parse_sections (read_text md2) !! h) ->
  build_payload md1 = build_payload md2.
Proof.
  intros Hstem Hagree.
  assert (Hmiss : missing_headings (parse_sections (read_text md1))
                  = missing_headings (parse_sections (read_text md2))).
  { unfold missing_headings. apply filter_agree. intros h Hh.
    rewrite !bool_decide_spec. by rewrite (Hagree h Hh). }
  destruct (decide (missing_headings (parse_sections (read_text md1)) = []))
    as [Hnil|Hne].
  - destruct (build_payload_six md1 Hnil)
      as (q & a & an & ex & kn & at' & Hq & Ha & Han & Hex & Hkn & Hat & ->).
    rewrite Hagree in Hq, Ha, Han, Hex, Hkn, Hat
      by (unfold required_headings; set_solver).
    rewrite (build_payload_present md2 _ _ _ _ _ _ Hq Ha Han Hex Hkn Hat).
    by apply assemble_stem.
  - rewrite (build_payload_missing md1 Hne).
    rewrite Hmiss in Hne. rewrite (build_payload_missing md2 Hne).
    by rewrite Hmiss.
Qed.

End PayloadMore.

Lemma returned_payload_witness :
  exists q a an ex kn at' v,
    parse_sections sample_doc !! lit "题目" = Some q
    /\ parse_sections sample_doc !! lit "答案" = Some a
    /\ parse_sections sample_doc !! lit "分析" = Some an
    /\ parse_sections sample_doc !! lit "详解" = Some ex
    /\ parse_sections sample_doc !! lit "知识点" = Some kn
    /\ parse_sections sample_doc !! lit "属性" = Some at'
    /\ parse_attributes at' !! lit "question_type" = Some (lit "numeric")
    /\ parse_attributes at' !! lit "accuracy" = Some v
    /\ py_float (Externals := Sample.externals) v = Some float_0_95
    /\ py_int (Externals := Sample.externals) (lit "42") = Some 42%Z
    /\ lit "<p>What is 2+2?</p>" = markdown_to_html (E := Sample.externals) q
    /\ lit "<p>What is 2+2?</p>" <> []
    /\ [lit "4"] = markdown_to_text_list (E := Sample.externals) a
    /\ [lit "4"] <> []
    /\ [] = markdown_to_html_list (E := Sample.externals) an
    /\ [] = markdown_to_html_list (E := Sample.externals) ex
    /\ [] = markdown_to_text_list (E := Sample.externals) kn.
Proof.
  apply (returned_payload (E := Sample.externals)
           {| stem := lit "42"; read_text := sample_doc |}
           {| question_id := 42;
              question_type := lit "numeric";
              accuracy := float_0_95;
              question := lit "<p>What is 2+2?</p>";
              answer := [lit "4"];
              analysis := [];
              explanation := [];
              knowledge := [] |}).
  reflexivity.
Defined.

Lemma empty_question_refused_witness :
  build_payload (E := Sample.externals)
    {| stem := lit "42"; read_text := doc_blank_question |}
  = Raise (ValueError (lit "Question section cannot be empty.")).
Proof.
  apply (empty_question_refused (E := Sample.externals)
           {| stem := lit "42"; read_text := doc_blank_question |}
           [] (join nl [lit "question_type: numeric"; lit "accuracy: 0.95"])
           (lit "numeric") (lit "0.95") float_0_95); reflexivity.
Defined.

Lemma empty_answer_refused_witness :
  build_payload (E := Sample.externals)
    {| stem := lit "42"; read_text := doc_blank_answer |}
  = Raise (ValueError (lit "Answer section cannot be empty.")).
Proof.
  apply (empty_answer_refused (E := Sample.externals)
           {| stem := lit "42"; read_text := doc_blank_answer |}
           (lit "What is 2+2?") []
           (join nl [lit "question_type: numeric"; lit "accuracy: 0.95"])
           (lit "numeric") (lit "0.95") float_0_95);
    try reflexivity; by vm_compute.
Defined.

Lemma bad_stem_refused_witness :
  exists msg,
    build_payload (E := Sample.externals)
      {| stem := lit "4x"; read_text := sample_doc |}
    = Raise (ValueError msg).
Proof.
  apply (bad_stem_refused (E := Sample.externals)
           {| stem := lit "4x"; read_text := sample_doc |}
           (lit "What is 2+2?") (lit "4")
           (join nl [lit "question_type: numeric"; lit "accuracy: 0.95"])
           (lit "numeric") (lit "0.95") float_0_95);
    try reflexivity; by vm_compute.
Defined.

Lemma only_required_sections_count_witness :
  build_payload (E := Sample.externals)
    {| stem := lit "42"; read_text := doc_extra_section |}
  = build_payload (E := Sample.externals)
      {| stem := lit "42"; read_text := sample_doc |}.
Proof.
  apply (only_required_sections_count (E := Sample.externals)
           {| stem := lit "42"; read_text := doc_extra_section |}
           {| stem := lit "42"; read_text := sample_doc |}).
  - reflexivity.
  - intros h Hh. unfold required_headings in Hh.
    repeat (apply elem_of_cons in Hh as [->|Hh]; [reflexivity|]).
    by apply elem_of_nil in Hh.
Defined.

(** ** Heading levels, attribute keys and the order of the missing names *)

Section Further.

Context {E : Externals}.

Local Arguments lit : simpl never.
Local Arguments strip : simpl never.
Local Arguments parse_sections : simpl never.

(** X21. The level of a heading does not count: one to six [#], and any
    whitespace character after them, open the same section. *)
Theorem heading_level_irrelevant
    (st : splitter) (k k' : nat) (sp sp' : N) (rest : pystr) :
  (1 <= k <= 6)%nat -> (1 <= k' <= 6)%nat ->
  isspace sp = true -> isspace sp' = true -> strip rest <> [] ->
  split_step st (replicate k 0x23 ++ sp :: rest)
  = split_step st (replicate k' 0x23 ++ sp' :: rest).
Proof.
  intros Hk Hk' Hsp Hsp' Hrest.
  rewrite (split_step_heading st _ (strip rest)),
          (split_step_heading st _ (strip rest)); [done|..].
  - apply (heading_title_marked [] k' sp' rest); [constructor | done..].
  - apply (heading_title_marked [] k sp rest); [constructor | done..].
Qed.

Lemma split_once_Some sep s a b :
  split_once sep s = Some (a, b) -> (sep ∉ a) /\ s = a ++ sep :: b.
Proof.
  revert a. induction s as [|c s IH]; intros a; simpl; [done|].
  destruct (N.eqb_spec c sep) as [->|Hne].
  - intros [= <- <-]. split; [apply not_elem_of_nil | done].
  - destruct (split_once sep s) as [[k v]|]; [|done].
    intros [= <- <-]. destruct (IH k eq_refl) as [Hk ->].
    split; [|done]. apply not_elem_of_cons. by split; [congruence|].
Qed.

Lemma attr_entry_clean line k v :
  attr_entry line = Some (k, v) -> (0x3A ∉ k) /\ strip k = k /\ strip v = v.
Proof.
  unfold attr_entry. destruct (truthy (strip line)); [|done].
  destruct (split_once 0x3A (strip line)) as [[key value]|] eqn:Hs; [|done].
  intros [= <- <-]. apply split_once_Some in Hs as [Hkey _].
  split; [|split; apply strip_idemp].
  intros Hin. by apply Hkey, elem_of_strip.
Qed.

(** X22. No key of the attributes holds a colon, and neither the keys nor
    the values have whitespace at either end. *)
Theorem attributes_clean (text k v : pystr) :
  parse_attributes text !! k = Some v ->
  (0x3A ∉ k) /\ strip k = k /\ strip v = v.
Proof.
  intros Hv.
  apply attribute_last_wins_entry in Hv as (l & He).
  by apply (attr_entry_clean l).
Qed.

Lemma ltb_asym (a b : pystr) : ltb a b = true -> ltb b a = false.
Proof.
  revert b. induction a as [|x a IH]; intros [|y b]; simpl; try done.
  intros H. apply orb_true_iff in H as [H|H].
  - apply N.ltb_lt in H.
    replace (y <? x) with false by (symmetry; apply N.ltb_ge; lia).
    replace (y =? x) with false by (symmetry; apply N.eqb_neq; lia).
    done.
  - apply andb_true_iff in H as [Hxy H]. apply N.eqb_eq in Hxy as ->.
    rewrite N.ltb_irrefl, N.eqb_refl. simpl. by apply IH.
Qed.

Lemma HdRel_insert_sorted (x y : pystr) (l : list pystr) :
  HdRel str_le y l -> str_le y x -> HdRel str_le y (insert_sorted x l).
Proof.
  intros Hl Hx. destruct l as [|z l]; simpl; [by constructor|].
  inversion Hl; subst. destruct (ltb z x); by constructor.
Qed.

Lemma Sorted_insert_sorted (x : pystr) (l : list pystr) :
  Sorted str_le l -> Sorted str_le (insert_sorted x l).
Proof.
  induction 1 as [|y l Hl IH Hy]; simpl; [by repeat constructor|].
  destruct (ltb y x) eqn:Hyx.
  - constructor; [done|]. apply HdRel_insert_sorted; [done|].
    by apply ltb_asym.
  - constructor; [by constructor|]. by constructor.
Qed.

Lemma Sorted_sorted (l : list pystr) : Sorted str_le (sorted l).
Proof.
  unfold sorted. induction l as [|x l IH]; simpl; [constructor|].
  by apply Sorted_insert_sorted.
Qed.

(** X23. The message for missing sections lists their names in ascending
    order of code points. *)
Theorem missing_names_ascending (md_path : Path) :
  (exists h, h ∈ required_headings
             /\ parse_sections (read_text md_path) !! h = None) ->
  exists names,
    build_payload md_path
    = Raise (ValueError (lit "Markdown file is missing sections: "
                         ++ join (lit ", ") names))
    /\ names ≡ₚ missing_headings (parse_sections (read_text md_path))
    /\ Sorted str_le names.
Proof.
  intros (h & Hreq & Hnone).
  exists (sorted (missing_headings (parse_sections (read_text md_path)))).
  split; [|split].
  - apply build_payload_missing. intros Hnil.
    assert (h ∈ missing_headings (parse_sections (read_text md_path))) as Hin
      by by apply elem_of_missing_headings.
    rewrite Hnil in Hin. by apply elem_of_nil in Hin.
  - apply NoDup_Permutation.
    + apply NoDup_sorted. unfold missing_headings.
      apply NoDup_filter, required_headings_NoDup.
    + unfold missing_headings. apply NoDup_filter, required_headings_NoDup.
    + intros x. apply elem_of_sorted.
  - apply Sorted_sorted.
Qed.

End Further.

Lemma heading_level_irrelevant_witness :
  split_step split_init (lit "# 题目") = split_step split_init (lit "### 题目").
Proof.
  apply (heading_level_irrelevant split_init 1 3 0x20 0x20 (lit "题目"));
    try lia; try reflexivity. by vm_compute.
Defined.

Lemma attributes_clean_witness :
  (0x3A ∉ lit "accuracy") /\ strip (lit "accuracy") = lit "accuracy"
  /\ strip (lit "0.95") = lit "0.95".
Proof.
  apply (attributes_clean attrs_twice (lit "accuracy") (lit "0.95")).
  reflexivity.
Defined.

Lemma missing_names_ascending_witness :
  exists names,
    build_payload (E := Sample.externals)
      {| stem := lit "42"; read_text := doc_two_missing |}
    = Raise (ValueError (lit "Markdown file is missing sections: "
                         ++ join (lit ", ") names))
    /\ names ≡ₚ missing_headings (parse_sections doc_two_missing)
    /\ Sorted str_le names.
Proof.
  apply (missing_names_ascending (E := Sample.externals)
           {| stem := lit "42"; read_text := doc_two_missing |}).
  exists (lit "属性"). split; [|reflexivity].
  unfold required_headings. do 5 apply list_elem_of_further.
  apply list_elem_of_here.
Defined.
